(** * The Sinter client: status classification, bounded-retry fetch and the
      polling loop of [sinter_operator/sinter_operator.py]

    The development is a shallow embedding of the classes [RunStatus] and
    [Sinter].  Python values are the values [json.loads] produces; the effects
    of the client (HTTP requests, [time.sleep], [print]) are recorded in a
    chronological trace, and the remote service is an arbitrary function from
    the history so far and the request to what [requests] gives back. *)

From Stdlib Require Import ZArith List String Ascii Bool Lia DecimalString.
Import ListNotations.

Local Open Scope string_scope.
Local Open Scope Z_scope.

(** ** Python values *)

(** The values of the integer fragment of JSON as [json.loads] decodes them:
    [None], [bool], [int], [str], [list] and [dict].  A dict is kept as the
    list of its items in insertion order.  Numbers with a fraction or an
    exponent decode to floats and are outside this fragment. *)
#[warnings="-register-all"]
Inductive pyval : Type :=
| PNone
| PBool (b : bool)
| PInt (z : Z)
| PStr (s : string)
| PList (xs : list pyval)
| PDict (items : list (string * pyval)).

(** The exceptions the client can meet.  [RuntimeError] and
    [AirflowException] carry their argument; [ValueError] is what
    [json.loads] raises on a body that is not JSON and [RequestException]
    what [requests] raises when no response arrives. *)
Inductive exn : Type :=
| RuntimeError (arg : string)
| AirflowException (arg : string)
| KeyError (key : string)
| TypeError
| ValueError
| RequestException.

Fixpoint dict_get {A : Type} (key : string) (items : list (string * A))
  : option A :=
  match items with
  | [] => None
  | (k, v) :: rest => if String.eqb k key then Some v else dict_get key rest
  end.

(** [v[key]] for a string key: only a dict can be subscripted by a string. *)
Definition getitem (v : pyval) (key : string) : exn + pyval :=
  match v with
  | PDict items =>
      match dict_get key items with
      | Some x => inr x
      | None => inl (KeyError key)
      end
  | _ => inl TypeError
  end.

(** [a == b].  [bool] is a subclass of [int], so [True == 1]; lists compare
    element by element and dicts as finite maps. *)
Fixpoint py_eq (a b : pyval) {struct a} : bool :=
  match a, b with
  | PNone, PNone => true
  | PBool x, PBool y => Bool.eqb x y
  | PBool x, PInt y => Z.b2z x =? y
  | PInt x, PBool y => x =? Z.b2z y
  | PInt x, PInt y => x =? y
  | PStr x, PStr y => String.eqb x y
  | PList xs, PList ys =>
      (fix all2 (xs ys : list pyval) {struct xs} : bool :=
         match xs, ys with
         | [], [] => true
         | x :: xs', y :: ys' => py_eq x y && all2 xs' ys'
         | _, _ => false
         end) xs ys
  | PDict xs, PDict ys =>
      Nat.eqb (List.length xs) (List.length ys) &&
      (fix sub (xs : list (string * pyval)) {struct xs} : bool :=
         match xs with
         | [] => true
         | (k, v) :: xs' =>
             match dict_get k ys with
             | Some w => py_eq v w
             | None => false
             end && sub xs'
         end) xs
  | _, _ => false
  end.

(** [for d in v]: a list gives its elements, a dict its keys, a string its
    characters; nothing else is iterable. *)
Definition py_iter (v : pyval) : exn + list pyval :=
  match v with
  | PList xs => inr xs
  | PDict items => inr (map (fun kv => PStr (fst kv)) items)
  | PStr s => inr (map (fun c => PStr (String c EmptyString)) (list_ascii_of_string s))
  | _ => inl TypeError
  end.

(** ** RunStatus *)

Module RunStatus.

Definition queued : Z := 1.
Definition dequeued : Z := 2.
Definition running : Z := 3.
Definition success : Z := 10.
Definition error : Z := 20.
Definition cancelled : Z := 30.

Definition LOOKUP : list (Z * string) :=
  [ (queued, "Queued");
    (dequeued, "Queued");
    (running, "Running");
    (success, "Success");
    (error, "Error");
    (cancelled, "Cancelled") ].

Fixpoint assoc (k : Z) (table : list (Z * string)) : option string :=
  match table with
  | [] => None
  | (k', label) :: rest => if k' =? k then Some label else assoc k rest
  end.

(** The key of [LOOKUP] a value is equal to, if it can be one: the keys are
    ints, and only an int or a bool compares equal to an int. *)
Definition int_key (status : pyval) : option Z :=
  match status with
  | PInt z => Some z
  | PBool b => Some (Z.b2z b)
  | _ => None
  end.

(** [cls.LOOKUP.get(status, 'Unknown')]: a list or a dict is unhashable and
    makes [dict.get] raise [TypeError]. *)
Definition lookup (status : pyval) : exn + string :=
  match status with
  | PList _ | PDict _ => inl TypeError
  | _ =>
      match int_key status with
      | Some z =>
          match assoc z LOOKUP with
          | Some label => inr label
          | None => inr "Unknown"
          end
      | None => inr "Unknown"
      end
  end.

End RunStatus.

(** ** Effects *)

Inductive http_method : Type := GET | POST.

Record request : Type := mkRequest {
  req_method : http_method;
  req_url : string;
  req_headers : list (string * string)
}.

Record response : Type := mkResponse {
  status_code : Z;
  content : string
}.

(** What a call of [requests.get] or [requests.post] gives: a response, or an
    exception of the transport. *)
Inductive reply : Type :=
| Responded (r : response)
| Unreachable.

Inductive event : Type :=
| Request (rq : request)
| Sleep (secs : Z)
| Print (line : string).

Definition trace : Type := list event.

(** The library functions the client calls and this development leaves
    open: [str] (used by [%s] and [{}]) and [json.loads], which gives [None]
    where Python raises [ValueError]. *)
Class Builtins : Type := {
  str : pyval -> string;
  json_loads : string -> option pyval
}.

(** The remote service: its reply may depend on everything that happened
    before the request, sleeps included. *)
Class Service : Type := {
  serve : trace -> request -> reply
}.

Inductive outcome (A : Type) : Type :=
| Return (a : A)
| Raise (e : exn)
| OutOfFuel.

Arguments Return {A} a.
Arguments Raise {A} e.
Arguments OutOfFuel {A}.

(** A computation reads the trace so far and gives its outcome together with
    the extended trace. *)
Definition M (A : Type) : Type := trace -> outcome A * trace.

Definition ret {A : Type} (a : A) : M A := fun tr => (Return a, tr).

Definition raise {A : Type} (e : exn) : M A := fun tr => (Raise e, tr).

Definition out_of_fuel {A : Type} : M A := fun tr => (OutOfFuel, tr).

Definition bind {A B : Type} (m : M A) (k : A -> M B) : M B :=
  fun tr =>
    match m tr with
    | (Return a, tr') => k a tr'
    | (Raise e, tr') => (Raise e, tr')
    | (OutOfFuel, tr') => (OutOfFuel, tr')
    end.

(** [try: body except RuntimeError as e: handler]. *)
Definition try_except_RuntimeError {A : Type} (body : M A)
  (handler : string -> M A) : M A :=
  fun tr =>
    match body tr with
    | (Raise (RuntimeError arg), tr') => handler arg tr'
    | r => r
    end.

Definition lift {A : Type} (r : exn + A) : M A :=
  match r with
  | inl e => raise e
  | inr a => ret a
  end.

Definition emit (e : event) : M unit := fun tr => (Return tt, (tr ++ [e])%list).

Definition print (line : string) : M unit := emit (Print line).

Definition time_sleep (secs : Z) : M unit := emit (Sleep secs).

Declare Scope monad_scope.
Delimit Scope monad_scope with monad.

Notation "x <- m ;; k" := (bind m (fun x => k))
  (at level 100, m at next level, right associativity) : monad_scope.
Notation "m ;; k" := (bind m (fun _ => k))
  (at level 100, right associativity) : monad_scope.

Local Open Scope monad_scope.

(** ** The client *)

Record Sinter : Type := mkSinter {
  account_id : pyval;
  api_token : pyval;
  api_base : string
}.

Definition Sinter_init (account_id api_token : pyval) : Sinter :=
  {| account_id := account_id;
     api_token := api_token;
     api_base := "https://cloud.getdbt.com/api/v1" |}.

Section Client.

Context {builtins : Builtins} {service : Service}.

(** [requests.get(url, headers=headers)] and [requests.post]: the request
    is recorded, and the service answers from the history before it. *)
Definition requests_send (rq : request) : M response :=
  fun tr =>
    match serve tr rq with
    | Responded r => (Return r, (tr ++ [Request rq])%list)
    | Unreachable => (Raise RequestException, (tr ++ [Request rq])%list)
    end.

Definition loads (body : string) : M pyval :=
  match json_loads body with
  | Some v => ret v
  | None => raise ValueError
  end.

Definition _get (self : Sinter) (url_suffix : string) : M pyval :=
  let url := api_base self ++ url_suffix in
  let headers := [("Authorization", "Token " ++ str (api_token self))] in
  response <- requests_send (mkRequest GET url headers) ;;
  if status_code response =? 200
  then loads (content response)
  else raise (RuntimeError (content response)).

Definition _post (self : Sinter) (url_suffix : string) : M pyval :=
  let url := api_base self ++ url_suffix in
  let headers := [("Authorization", "token " ++ str (api_token self))] in
  response <- requests_send (mkRequest POST url headers) ;;
  if status_code response =? 201
  then loads (content response)
  else raise (RuntimeError (content response)).

Definition projects_url (self : Sinter) : string :=
  "/accounts/" ++ str (account_id self) ++ "/projects/".

Definition project_url (self : Sinter) (project_id : pyval) : string :=
  "/accounts/" ++ str (account_id self) ++ "/projects/" ++ str project_id ++ "/".

Definition definitions_url (self : Sinter) (project_id : pyval) : string :=
  "/accounts/" ++ str (account_id self) ++ "/projects/" ++ str project_id
    ++ "/definitions/".

Definition run_url (self : Sinter) (project_id job_id : pyval) : string :=
  "/accounts/" ++ str (account_id self) ++ "/projects/" ++ str project_id
    ++ "/runs/" ++ str job_id ++ "/".

Definition trigger_url (self : Sinter) (project_id definition_id : pyval)
  : string :=
  "/accounts/" ++ str (account_id self) ++ "/projects/" ++ str project_id
    ++ "/definitions/" ++ str definition_id ++ "/runs/".

Definition list_projects (self : Sinter) : M pyval :=
  body <- _get self (projects_url self) ;;
  lift (getitem body "data").

Definition get_project (self : Sinter) (project_id : pyval) : M pyval :=
  body <- _get self (project_url self project_id) ;;
  lift (getitem body "data").

Definition list_job_definitions (self : Sinter) (project_id : pyval)
  : M pyval :=
  _get self (definitions_url self project_id).

Definition get_job_run (self : Sinter) (project_id job_id : pyval)
  : M pyval :=
  _get self (run_url self project_id job_id).

Definition trigger_job_run (self : Sinter) (project_id definition_id : pyval)
  : M pyval :=
  _post self (trigger_url self project_id definition_id).

Definition too_many_failures (job_id : pyval) : string :=
  "Too many failures (" ++ str job_id ++ ") while querying for job status".

(** The [for i in range(n)] loop of [try_get_job_run] with the [raise]
    that follows it: [n] is the number of iterations left. *)
Fixpoint try_get_job_run_loop (n : nat) (self : Sinter)
  (project_id job_id : pyval) : M pyval :=
  match n with
  | O => raise (RuntimeError (too_many_failures job_id))
  | S n' =>
      try_except_RuntimeError
        (job <- get_job_run self project_id job_id ;;
         ret job)
        (fun e =>
           print ("Encountered a runtime error while fetching status for "
                    ++ str job_id) ;;
           time_sleep 10 ;;
           try_get_job_run_loop n' self project_id job_id)
  end.

(** [range(max_tries)] is empty for a negative [max_tries]. *)
Definition try_get_job_run (self : Sinter) (project_id job_id : pyval)
  (max_tries : Z) : M pyval :=
  try_get_job_run_loop (Z.to_nat max_tries) self project_id job_id.

(** The default of the parameter [max_tries], which the call in
    [block_until_complete] leaves in place. *)
Definition default_max_tries : Z := 3.

Definition query_sleep : Z := 30.

Definition is_terminal (status_name : string) : bool :=
  existsb (String.eqb status_name) ["Success"; "Error"; "Cancelled"].

Definition status_name_of (job : pyval) : exn + string :=
  match getitem job "status" with
  | inl e => inl e
  | inr status => RunStatus.lookup status
  end.

(** [while True] is unrolled [fuel] times. *)
Fixpoint block_until_complete (fuel : nat) (self : Sinter)
  (project_id job_id : pyval) : M pyval :=
  match fuel with
  | O => out_of_fuel
  | S fuel' =>
      job <- try_get_job_run self project_id job_id default_max_tries ;;
      status_name <- lift (status_name_of job) ;;
      print ("JOB: " ++ str job_id ++ ", STATUS: " ++ status_name) ;;
      if is_terminal status_name
      then ret job
      else
        time_sleep query_sleep ;;
        block_until_complete fuel' self project_id job_id
  end.

(** [[d for d in ds if d['name'] == job_name]] over the items of [ds]. *)
Fixpoint select_by_name (ds : list pyval) (job_name : pyval)
  : exn + list pyval :=
  match ds with
  | [] => inr []
  | d :: ds' =>
      match getitem d "name" with
      | inl e => inl e
      | inr name =>
          match select_by_name ds' job_name with
          | inl e => inl e
          | inr rest => inr (if py_eq name job_name then d :: rest else rest)
          end
      end
  end.

Definition job_defs_of (definitions job_name : pyval) : exn + list pyval :=
  match py_iter definitions with
  | inl e => inl e
  | inr ds => select_by_name ds job_name
  end.

Definition jobs_found (n : nat) (job_name : pyval) : string :=
  str (PInt (Z.of_nat n)) ++ " jobs found for " ++ str job_name.

Definition run_failed (status_name : string) : string :=
  "Run failed with status: " ++ status_name.

(** [len(job_defs) != 1] raises; otherwise [job_defs[0]] is the one
    definition. *)
Definition run_job (fuel : nat) (self : Sinter) (project_id job_name : pyval)
  : M pyval :=
  definitions <- list_job_definitions self project_id ;;
  job_defs <- lift (job_defs_of definitions job_name) ;;
  match job_defs with
  | [job_def] =>
      definition_id <- lift (getitem job_def "id") ;;
      trigger_resp <- trigger_job_run self project_id definition_id ;;
      job_id <- lift (getitem trigger_resp "id") ;;
      job <- block_until_complete fuel self project_id job_id ;;
      status_name <- lift (status_name_of job) ;;
      if String.eqb status_name "Success"
      then ret job
      else raise (AirflowException (run_failed status_name))
  | _ =>
      raise (AirflowException (jobs_found (List.length job_defs) job_name))
  end.

End Client.

(** ** A reference instance of the builtins

    The theorems below hold for every [str] and [json.loads].  To run the
    client on concrete exchanges, this instance gives [str] as Python 3
    prints the values of the fragment, and a decoder for JSON texts whose
    numbers are integers and whose strings use the two-character escapes
    only. *)

Definition dquote : ascii := "034"%char.
Definition backslash : ascii := "092"%char.

Definition str_of_int (z : Z) : string := NilZero.string_of_int (Z.to_int z).

Fixpoint join (sep : string) (parts : list string) : string :=
  match parts with
  | [] => ""
  | [p] => p
  | p :: rest => p ++ sep ++ join sep rest
  end.

Definition quoted (s : string) : string := "'" ++ s ++ "'".

Fixpoint py_repr (v : pyval) : string :=
  match v with
  | PNone => "None"
  | PBool true => "True"
  | PBool false => "False"
  | PInt z => str_of_int z
  | PStr s => quoted s
  | PList xs => "[" ++ join ", " (map py_repr xs) ++ "]"
  | PDict items =>
      "{" ++ join ", " (map (fun kv => quoted (fst kv) ++ ": " ++ py_repr (snd kv)) items)
          ++ "}"
  end.

Definition py_str (v : pyval) : string :=
  match v with
  | PStr s => s
  | _ => py_repr v
  end.

Definition is_ws (c : ascii) : bool :=
  existsb (Ascii.eqb c) [" "; "009"; "010"; "013"]%char.

Fixpoint skip_ws (cs : list ascii) : list ascii :=
  match cs with
  | c :: cs' => if is_ws c then skip_ws cs' else cs
  | [] => []
  end.

Definition digit_of (c : ascii) : option Z :=
  let n := Z.of_nat (nat_of_ascii c) in
  if (48 <=? n) && (n <=? 57) then Some (n - 48) else None.

Fixpoint scan_digits (acc : Z) (cs : list ascii) : Z * list ascii :=
  match cs with
  | c :: cs' =>
      match digit_of c with
      | Some d => scan_digits (10 * acc + d) cs'
      | None => (acc, cs)
      end
  | [] => (acc, [])
  end.

(** An integer literal: no leading zero, and no fraction or exponent after
    it. *)
Definition scan_int (cs : list ascii) : option (Z * list ascii) :=
  match cs with
  | c :: cs' =>
      match digit_of c with
      | Some d =>
          let (n, rest) := scan_digits d cs' in
          let plain :=
            match rest with
            | r :: _ => negb (existsb (Ascii.eqb r) ["."; "e"; "E"]%char)
            | [] => true
            end in
          let no_leading_zero :=
            match cs' with
            | c' :: _ => negb ((d =? 0) && match digit_of c' with Some _ => true | None => false end)
            | [] => true
            end in
          if plain && no_leading_zero then Some (n, rest) else None
      | None => None
      end
  | [] => None
  end.

Definition unescape (c : ascii) : option ascii :=
  if Ascii.eqb c dquote then Some dquote
  else if Ascii.eqb c backslash then Some backslash
  else if Ascii.eqb c "/" then Some "/"%char
  else if Ascii.eqb c "b" then Some "008"%char
  else if Ascii.eqb c "f" then Some "012"%char
  else if Ascii.eqb c "n" then Some "010"%char
  else if Ascii.eqb c "r" then Some "013"%char
  else if Ascii.eqb c "t" then Some "009"%char
  else None.

(** The characters after an opening quote, up to the closing one. *)
Fixpoint scan_string (cs : list ascii) : option (string * list ascii) :=
  match cs with
  | [] => None
  | c :: cs' =>
      if Ascii.eqb c dquote then Some (EmptyString, cs')
      else if Ascii.eqb c backslash then
        match cs' with
        | e :: cs'' =>
            match unescape e, scan_string cs'' with
            | Some u, Some (s, rest) => Some (String u s, rest)
            | _, _ => None
            end
        | [] => None
        end
      else if (Z.of_nat (nat_of_ascii c) <? 32) then None
      else
        match scan_string cs' with
        | Some (s, rest) => Some (String c s, rest)
        | None => None
        end
  end.

(** [dict] assignment: a key that is present keeps its place. *)
Fixpoint dict_set (key : string) (v : pyval) (items : list (string * pyval))
  : list (string * pyval) :=
  match items with
  | [] => [(key, v)]
  | (k, w) :: rest =>
      if String.eqb k key then (k, v) :: rest else (k, w) :: dict_set key v rest
  end.

Definition dict_of_pairs (pairs : list (string * pyval)) : list (string * pyval) :=
  fold_left (fun d kv => dict_set (fst kv) (snd kv) d) pairs [].

Definition starts_with (lit : string) (cs : list ascii) : option (list ascii) :=
  let n := String.length lit in
  if String.eqb (string_of_list_ascii (firstn n cs)) lit
  then Some (skipn n cs) else None.

Fixpoint parse_value (fuel : nat) (cs : list ascii) {struct fuel}
  : option (pyval * list ascii) :=
  match fuel with
  | O => None
  | S fuel' =>
      match skip_ws cs with
      | [] => None
      | c :: rest =>
          if Ascii.eqb c dquote then
            match scan_string rest with
            | Some (s, rest') => Some (PStr s, rest')
            | None => None
            end
          else if Ascii.eqb c "[" then
            match skip_ws rest with
            | "]"%char :: rest' => Some (PList [], rest')
            | _ =>
                match parse_elements fuel' rest with
                | Some (xs, rest') => Some (PList xs, rest')
                | None => None
                end
            end
          else if Ascii.eqb c "{" then
            match skip_ws rest with
            | "}"%char :: rest' => Some (PDict [], rest')
            | _ =>
                match parse_members fuel' rest with
                | Some (kvs, rest') => Some (PDict (dict_of_pairs kvs), rest')
                | None => None
                end
            end
          else if Ascii.eqb c "-" then
            match scan_int rest with
            | Some (n, rest') => Some (PInt (- n), rest')
            | None => None
            end
          else
            match starts_with "null" (c :: rest),
                  starts_with "true" (c :: rest),
                  starts_with "false" (c :: rest) with
            | Some rest', _, _ => Some (PNone, rest')
            | _, Some rest', _ => Some (PBool true, rest')
            | _, _, Some rest' => Some (PBool false, rest')
            | _, _, _ =>
                match scan_int (c :: rest) with
                | Some (n, rest') => Some (PInt n, rest')
                | None => None
                end
            end
      end
  end

with parse_elements (fuel : nat) (cs : list ascii) {struct fuel}
  : option (list pyval * list ascii) :=
  match fuel with
  | O => None
  | S fuel' =>
      match parse_value fuel' cs with
      | Some (x, rest) =>
          match skip_ws rest with
          | "]"%char :: rest' => Some ([x], rest')
          | ","%char :: rest' =>
              match parse_elements fuel' rest' with
              | Some (xs, rest'') => Some (x :: xs, rest'')
              | None => None
              end
          | _ => None
          end
      | None => None
      end
  end

with parse_members (fuel : nat) (cs : list ascii) {struct fuel}
  : option (list (string * pyval) * list ascii) :=
  match fuel with
  | O => None
  | S fuel' =>
      match skip_ws cs with
      | q :: rest =>
          if Ascii.eqb q dquote then
            match scan_string rest with
            | Some (k, rest1) =>
                match skip_ws rest1 with
                | ":"%char :: rest2 =>
                    match parse_value fuel' rest2 with
                    | Some (v, rest3) =>
                        match skip_ws rest3 with
                        | "}"%char :: rest4 => Some ([(k, v)], rest4)
                        | ","%char :: rest4 =>
                            match parse_members fuel' rest4 with
                            | Some (kvs, rest5) => Some ((k, v) :: kvs, rest5)
                            | None => None
                            end
                        | _ => None
                        end
                    | None => None
                    end
                | _ => None
                end
            | None => None
            end
          else None
      | [] => None
      end
  end.

(** The whole text must be one value; the length of the text bounds the
    depth of the recursion. *)
Definition py_json_loads (body : string) : option pyval :=
  let cs := list_ascii_of_string body in
  match parse_value (S (List.length cs)) cs with
  | Some (v, rest) =>
      match skip_ws rest with
      | [] => Some v
      | _ => None
      end
  | None => None
  end.

Definition json_quoted (s : string) : string :=
  String dquote (s ++ String dquote EmptyString).

(** [json.dumps] for values whose strings need no escape; the bodies of the
    exchanges below are written with it. *)
Fixpoint json_dumps (v : pyval) : string :=
  match v with
  | PNone => "null"
  | PBool true => "true"
  | PBool false => "false"
  | PInt z => str_of_int z
  | PStr s => json_quoted s
  | PList xs => "[" ++ join ", " (map json_dumps xs) ++ "]"
  | PDict items =>
      "{" ++ join ", "
               (map (fun kv => json_quoted (fst kv) ++ ": " ++ json_dumps (snd kv)) items)
          ++ "}"
  end.

Definition cpython : Builtins :=
  {| str := py_str; json_loads := py_json_loads |}.

(** A service that answers the n-th request with the n-th reply of a script,
    whatever the request, and is unreachable afterwards. *)
Definition requests_in (tr : trace) : nat :=
  List.length (filter (fun e => match e with Request _ => true | _ => false end) tr).

Definition scripted (script : list reply) : Service :=
  {| serve := fun tr _ => nth (requests_in tr) script Unreachable |}.

Definition http (code : Z) (body : string) : reply :=
  Responded (mkResponse code body).

(** The requests of the client. *)
Section Requests.

Context {builtins : Builtins}.

Definition get_request (self : Sinter) (url_suffix : string) : request :=
  mkRequest GET (api_base self ++ url_suffix)
    [("Authorization", "Token " ++ str (api_token self))].

Definition post_request (self : Sinter) (url_suffix : string) : request :=
  mkRequest POST (api_base self ++ url_suffix)
    [("Authorization", "token " ++ str (api_token self))].

(** What a helper that expects the status [expected] makes of a reply. *)
Definition decoded (expected : Z) (rp : reply) : outcome pyval :=
  match rp with
  | Responded r =>
      if status_code r =? expected
      then match json_loads (content r) with
           | Some v => Return v
           | None => Raise ValueError
           end
      else Raise (RuntimeError (content r))
  | Unreachable => Raise RequestException
  end.

Definition run_request (self : Sinter) (project_id job_id : pyval) : request :=
  get_request self (run_url self project_id job_id).

(** What one failed attempt of [try_get_job_run] leaves in the trace. *)
Definition failed_attempt (self : Sinter) (project_id job_id : pyval)
  : list event :=
  [ Request (run_request self project_id job_id);
    Print ("Encountered a runtime error while fetching status for "
             ++ str job_id);
    Sleep 10 ].

Fixpoint after_failures (k : nat) (self : Sinter) (project_id job_id : pyval)
  (tr : trace) : trace :=
  match k with
  | O => tr
  | S k' =>
      after_failures k' self project_id job_id
        (tr ++ failed_attempt self project_id job_id)%list
  end.

Definition status_line (job_id : pyval) (status_name : string) : string :=
  "JOB: " ++ str job_id ++ ", STATUS: " ++ status_name.

Context {service : Service}.

(** The attempt of [try_get_job_run] made at [tr] is answered by a status
    other than 200, so that [get_job_run] raises [RuntimeError]. *)
Definition refused_at (self : Sinter) (project_id job_id : pyval)
  (tr : trace) : Prop :=
  exists r,
    serve tr (run_request self project_id job_id) = Responded r /\
    status_code r <> 200.

End Requests.

Definition count_sleeps (secs : Z) (tr : trace) : nat :=
  List.length
    (filter (fun e => match e with Sleep s => s =? secs | _ => false end) tr).

Definition is_post (e : event) : bool :=
  match e with
  | Request rq => match req_method rq with POST => true | GET => false end
  | _ => false
  end.

(** [needle] occurs in [hay]. *)
Definition occurs_in (needle hay : string) : Prop :=
  exists before after : string, hay = before ++ needle ++ after.

(** A decidable version, for concrete strings. *)
Fixpoint has_prefix (p s : string) : bool :=
  match p, s with
  | EmptyString, _ => true
  | String a p', String b s' => Ascii.eqb a b && has_prefix p' s'
  | String _ _, EmptyString => false
  end.

Fixpoint occurs_inb (needle hay : string) : bool :=
  has_prefix needle hay ||
  match hay with
  | EmptyString => false
  | String _ hay' => occurs_inb needle hay'
  end.

Section Polling.

Context {builtins : Builtins} {service : Service}.

Definition terminal_names : list string := ["Success"; "Error"; "Cancelled"].

(** The five operations of the client, each with the request it sends and
    the status it expects. *)
Definition operations (self : Sinter) (project_id job_id definition_id : pyval)
  : list (M pyval * request * Z) :=
  [ (list_projects self, get_request self (projects_url self), 200);
    (get_project self project_id,
     get_request self (project_url self project_id), 200);
    (list_job_definitions self project_id,
     get_request self (definitions_url self project_id), 200);
    (get_job_run self project_id job_id,
     get_request self (run_url self project_id job_id), 200);
    (trigger_job_run self project_id definition_id,
     post_request self (trigger_url self project_id definition_id), 201) ].

(** [pending self project_id job_id tr jobs tr']: started at [tr], the loop
    of [block_until_complete] fetches the payloads [jobs] one after the
    other, none of them has a terminal status, and at [tr'] it has slept
    after the last of them. *)
Inductive pending (self : Sinter) (project_id job_id : pyval)
  : trace -> list pyval -> trace -> Prop :=
| pending_nil (tr : trace) : pending self project_id job_id tr [] tr
| pending_cons (tr tr1 tr2 : trace) (job : pyval) (name : string)
    (jobs : list pyval) :
    try_get_job_run self project_id job_id default_max_tries tr
      = (Return job, tr1) ->
    status_name_of job = inr name ->
    ~ In name terminal_names ->
    pending self project_id job_id
      (tr1 ++ [Print (status_line job_id name); Sleep query_sleep])%list
      jobs tr2 ->
    pending self project_id job_id tr (job :: jobs) tr2.

End Polling.

(** ** Concrete exchanges

    A client of account 42, the project 5 and scripted services, on which
    the statements below are run. *)

Definition demo : Sinter := Sinter_init (PInt 42) (PStr "s3cr3t").

Definition record (id : Z) (name : string) : pyval :=
  PDict [("id", PInt id); ("name", PStr name)].

Definition payload (status : Z) : pyval :=
  PDict [("id", PInt 900); ("status", PInt status)].

Definition two_definitions : pyval :=
  PList [record 11 "hourly"; record 12 "nightly"].

(** The listing, the trigger, then a queued run, a refused fetch, a running
    run and a run whose status is [final]. *)
Definition run_service (final : Z) : Service :=
  scripted
    [ http 200 (json_dumps two_definitions);
      http 201 (json_dumps (payload 1));
      http 200 (json_dumps (payload 1));
      http 503 "busy";
      http 200 (json_dumps (payload 3));
      http 200 (json_dumps (payload final)) ].

(** Every fetch is refused. *)
Definition refusing_service : Service :=
  scripted [http 500 "oops"; http 502 "bad gateway"; http 503 "busy"].

(** A first answer with status 200 that is not JSON; the second one would
    do. *)
Definition html_service : Service :=
  scripted [http 200 "<html>"; http 200 (json_dumps (payload 10))].

(** Two definitions have the same name. *)
Definition twins_service : Service :=
  scripted
    [ http 200 (json_dumps (PList [record 11 "nightly"; record 12 "nightly"]));
      http 201 (json_dumps (payload 1)) ].

(** The records come wrapped under 'data'. *)
Definition wrapped_service : Service :=
  scripted
    [ http 200 (json_dumps (PDict [("data", two_definitions)]));
      http 201 (json_dumps (payload 1)) ].

(** ** The operator *)

(** [str(e)] for a [RuntimeError] [e] raised with one argument, as
    ["{}".format(e)] prints it: the argument itself when it is a [str], and
    for the bytes of a response body what the interpreter prints for bytes.
    The development leaves it open. *)
Class ErrorText : Type := {
  error_str : string -> string
}.

Module SinterOperator.

Record t : Type := mk {
  token : pyval;
  account_id : pyval;
  project_id : pyval;
  job_name : pyval
}.

(** [v is None]. *)
Definition is_None (v : pyval) : bool :=
  match v with
  | PNone => true
  | _ => false
  end.

(** The body of [__init__] after the call of the base class: the four
    checks in their order, then the four assignments. *)
Definition init (token account_id project_id job_name : pyval) : exn + t :=
  if is_None token
  then inl (AirflowException "No valid Sinter token was supplied.")
  else if is_None account_id
  then inl (AirflowException "No valid account id was supplied.")
  else if is_None project_id
  then inl (AirflowException "No valid project id was supplied.")
  else if is_None job_name
  then inl (AirflowException "No job name was supplied.")
  else inr (mk token account_id project_id job_name).

Definition error_while_running {builtins : Builtins} {errors : ErrorText}
  (job_name : pyval) (arg : string) : string :=
  "Error while running job " ++ str job_name ++ ": " ++ error_str arg.

(** [execute]: the result of [run_job] is dropped, so that a run that
    succeeds gives [None]. *)
Definition execute {builtins : Builtins} {service : Service}
  {errors : ErrorText} (fuel : nat) (self : t) : M pyval :=
  try_except_RuntimeError
    (let sinter := Sinter_init (account_id self) (token self) in
     _ <- run_job fuel sinter (project_id self) (job_name self) ;;
     ret PNone)
    (fun e => raise (AirflowException (error_while_running (job_name self) e))).

End SinterOperator.

(** ** Shapes of traces and of listings *)

(** The events of the polling of one run: fetches of that run, messages,
    and sleeps of 10 or 30 seconds. *)
Definition polling_event {builtins : Builtins} (self : Sinter)
  (project_id job_id : pyval) (e : event) : Prop :=
  match e with
  | Request rq => rq = run_request self project_id job_id
  | Sleep secs => secs = 10 \/ secs = 30
  | Print _ => True
  end.

(** A request that goes to the API base and carries the token, after
    'Token' for a GET and 'token' for a POST, as its only header. *)
Definition authorized {builtins : Builtins} (self : Sinter) (e : event) : Prop :=
  match e with
  | Request rq =>
      (exists url_suffix, req_url rq = api_base self ++ url_suffix) /\
      req_headers rq =
        [("Authorization",
          match req_method rq with
          | GET => "Token "
          | POST => "token "
          end ++ str (api_token self))]
  | _ => True
  end.

Definition has_name (d : pyval) : Prop :=
  exists name, getitem d "name" = inr name.

(** The test of the list comprehension of [run_job] on a record that has a
    name. *)
Definition name_is (job_name d : pyval) : bool :=
  match getitem d "name" with
  | inr name => py_eq name job_name
  | inl _ => false
  end.

(** A service that gives the same reply to every request. *)
Definition always (rp : reply) : Service :=
  {| serve := fun _ _ => rp |}.

(** [str(e)] in Python 3 for an error whose argument is the bytes of a
    response body, when these are printable ASCII characters other than the
    apostrophe and the backslash: the bytes literal [b'...']. *)
Definition bytes_errors : ErrorText :=
  {| error_str := fun arg => "b'" ++ arg ++ "'" |}.

(** The listing is refused. *)
Definition closed_service : Service :=
  scripted [http 401 "Invalid token."].

(** The listing is answered and the trigger is not accepted with 201. *)
Definition untriggered_service : Service :=
  scripted [http 200 (json_dumps two_definitions); http 200 (json_dumps (payload 1))].

(** The trigger response names no run. *)
Definition anonymous_service : Service :=
  scripted
    [ http 200 (json_dumps two_definitions);
      http 201 (json_dumps (PDict [("status", PInt 1)])) ].


(** One record of the listing has no name. *)
Definition nameless_service : Service :=
  scripted
    [ http 200 (json_dumps (PList [record 12 "nightly"; PDict [("id", PInt 13)]])) ].

Definition demo_operator : SinterOperator.t :=
  SinterOperator.mk (PStr "s3cr3t") (PInt 42) (PInt 5) (PStr "nightly").

(** ** A service that reads the requests *)

(** The three requests of the client [demo] for the project 5, written
    out: the listing, the trigger of the definition 12 and the fetch of the
    run 900. *)
Definition demo_listing : request :=
  mkRequest GET
    "https://cloud.getdbt.com/api/v1/accounts/42/projects/5/definitions/"
    [("Authorization", "Token s3cr3t")].

Definition demo_trigger : request :=
  mkRequest POST
    "https://cloud.getdbt.com/api/v1/accounts/42/projects/5/definitions/12/runs/"
    [("Authorization", "token s3cr3t")].

Definition demo_fetch : request :=
  mkRequest GET
    "https://cloud.getdbt.com/api/v1/accounts/42/projects/5/runs/900/"
    [("Authorization", "Token s3cr3t")].

Definition same_request (a b : request) : bool :=
  match req_method a, req_method b with
  | GET, GET | POST, POST => true
  | _, _ => false
  end
  && String.eqb (req_url a) (req_url b)
  && match req_headers a, req_headers b with
     | [(k, v)], [(k', v')] => String.eqb k k' && String.eqb v v'
     | _, _ => false
     end.

Definition sent_before (rq : request) (tr : trace) : nat :=
  List.length
    (filter (fun e => match e with
                      | Request rq' => same_request rq rq'
                      | _ => false
                      end) tr).

(** It answers the listing with the two definitions, accepts the trigger of
    the definition 12 with the run 900, and answers the n-th fetch of that
    run with the n-th reply of [polls]; every other request, whether its
    method, its URL or its header differs, gets 404. *)
Definition cloud (polls : list reply) : Service :=
  {| serve := fun tr rq =>
       if same_request rq demo_listing
       then http 200 (json_dumps two_definitions)
       else if same_request rq demo_trigger
       then http 201 (json_dumps (payload 1))
       else if same_request rq demo_fetch
       then nth (sent_before demo_fetch tr) polls Unreachable
       else http 404 "Not found" |}.

(** A queued run, a refused fetch, a running run and a run that
    succeeded. *)
Definition four_polls : list reply :=
  [ http 200 (json_dumps (payload 1));
    http 503 "busy";
    http 200 (json_dumps (payload 3));
    http 200 (json_dumps (payload 10)) ].

(** The trace of the polling of the run 900 against [cloud four_polls], up
    to the sleep after the running run. *)
Definition demo_two_turns : trace :=
  [ Request demo_listing; Request demo_trigger;
    Request demo_fetch; Print "JOB: 900, STATUS: Queued"; Sleep 30;
    Request demo_fetch;
    Print "Encountered a runtime error while fetching status for 900"; Sleep 10;
    Request demo_fetch; Print "JOB: 900, STATUS: Running"; Sleep 30 ].

(** ** Tactics for concrete runs *)

(** Evaluates the left-hand side of an equation and reads the unknowns of
    the right-hand side off the value. *)
Ltac evaluate :=
  lazymatch goal with
  | |- ?lhs = _ =>
      let v := eval vm_compute in lhs in
      transitivity v; [vm_compute; reflexivity | reflexivity]
  end.

Ltac not_listed :=
  let H := fresh "H" in
  intros H; cbn in H;
  repeat (destruct H as [H | H]; [discriminate H |]); exact H.

Ltac two_turns_then_fetch :=
  eexists; split;
  [ eapply pending_cons; [evaluate | evaluate | not_listed |];
    eapply pending_cons; [evaluate | evaluate | not_listed |];
    apply pending_nil
  | vm_compute; reflexivity ].

(** * Properties *)


(** ** Status classification *)

(** C4: a status code outside 1, 2, 3, 10, 20, 30 is classified "Unknown"
    (the lookup does not fail), and the six known codes have their fixed
    labels: 1 and 2 "Queued", 3 "Running", 10 "Success", 20 "Error",
    30 "Cancelled". *)
Theorem lookup_known_or_Unknown :
  (forall z : Z, ~ In z [1; 2; 3; 10; 20; 30] ->
                 RunStatus.lookup (PInt z) = inr "Unknown") /\
  RunStatus.lookup (PInt 1) = inr "Queued" /\
  RunStatus.lookup (PInt 2) = inr "Queued" /\
  RunStatus.lookup (PInt 3) = inr "Running" /\
  RunStatus.lookup (PInt 10) = inr "Success" /\
  RunStatus.lookup (PInt 20) = inr "Error" /\
  RunStatus.lookup (PInt 30) = inr "Cancelled".
Proof.
  split; [| repeat split; reflexivity].
  intros z Hz. unfold RunStatus.lookup, RunStatus.int_key, RunStatus.LOOKUP.
  cbn [RunStatus.assoc].
  unfold RunStatus.queued, RunStatus.dequeued, RunStatus.running,
    RunStatus.success, RunStatus.error, RunStatus.cancelled.
  repeat match goal with
         | |- context [?k =? z] =>
             destruct (Z.eqb_spec k z) as [Heq | _];
             [exfalso; apply Hz; rewrite <- Heq; simpl; tauto |]
         end.
  reflexivity.
Qed.

Lemma lookup_known_or_Unknown_witness :
  RunStatus.lookup (PInt 4) = inr "Unknown".
Proof.
  apply (proj1 lookup_known_or_Unknown 4).
  simpl. intros H. repeat (destruct H as [H | H]; [discriminate H |]). exact H.
Defined.

(** The lookup never fails on a value that can be hashed. *)
Lemma lookup_hashable (status : pyval) :
  (forall xs, status <> PList xs) -> (forall items, status <> PDict items) ->
  exists label, RunStatus.lookup status = inr label.
Proof.
  intros Hl Hd.
  destruct status as [| b | z | s | xs | items]; cbn [RunStatus.lookup RunStatus.int_key];
    try (eexists; reflexivity).
  - destruct (RunStatus.assoc (Z.b2z b) RunStatus.LOOKUP); eexists; reflexivity.
  - destruct (RunStatus.assoc z RunStatus.LOOKUP); eexists; reflexivity.
  - exfalso. eapply Hl. reflexivity.
  - exfalso. eapply Hd. reflexivity.
Qed.

(** ** The API client *)

Section ClientFacts.

Context {builtins : Builtins} {service : Service}.

Lemma bind_Return {A B : Type} (m : M A) (k : A -> M B) tr a tr' :
  m tr = (Return a, tr') -> bind m k tr = k a tr'.
Proof. intros H. unfold bind. rewrite H. reflexivity. Qed.

Lemma bind_Raise {A B : Type} (m : M A) (k : A -> M B) tr e tr' :
  m tr = (Raise e, tr') -> bind m k tr = (Raise e, tr').
Proof. intros H. unfold bind. rewrite H. reflexivity. Qed.

Lemma bind_OutOfFuel {A B : Type} (m : M A) (k : A -> M B) tr tr' :
  m tr = (OutOfFuel, tr') -> bind m k tr = (OutOfFuel, tr').
Proof. intros H. unfold bind. rewrite H. reflexivity. Qed.

Lemma lift_run {A : Type} (r : exn + A) tr :
  lift r tr = (match r with inl e => Raise e | inr a => Return a end, tr).
Proof. destruct r; reflexivity. Qed.

(** Both helpers send their one request and read the reply. *)
Lemma _get_run self url_suffix tr :
  _get self url_suffix tr =
    (decoded 200 (serve tr (get_request self url_suffix)),
     (tr ++ [Request (get_request self url_suffix)])%list).
Proof.
  unfold _get, bind, requests_send, decoded, loads. fold (get_request self url_suffix).
  destruct (serve tr _) as [r |]; [| reflexivity].
  destruct (status_code r =? 200); [| reflexivity].
  destruct (json_loads (content r)); reflexivity.
Qed.

Lemma _post_run self url_suffix tr :
  _post self url_suffix tr =
    (decoded 201 (serve tr (post_request self url_suffix)),
     (tr ++ [Request (post_request self url_suffix)])%list).
Proof.
  unfold _post, bind, requests_send, decoded, loads. fold (post_request self url_suffix).
  destruct (serve tr _) as [r |]; [| reflexivity].
  destruct (status_code r =? 201); [| reflexivity].
  destruct (json_loads (content r)); reflexivity.
Qed.

Lemma decoded_other expected r :
  status_code r <> expected ->
  decoded expected (Responded r) = Raise (RuntimeError (content r)).
Proof.
  intros H. unfold decoded.
  destruct (Z.eqb_spec (status_code r) expected); [contradiction | reflexivity].
Qed.

Lemma decoded_expected expected r v :
  status_code r = expected -> json_loads (content r) = Some v ->
  decoded expected (Responded r) = Return v.
Proof.
  intros H Hv. unfold decoded. rewrite H, Z.eqb_refl, Hv. reflexivity.
Qed.

(** An operation that returns what the body has under 'data'. *)
Lemma data_of_get_run self url_suffix tr :
  (body <- _get self url_suffix ;; lift (getitem body "data")) tr =
    (match decoded 200 (serve tr (get_request self url_suffix)) with
     | Return body =>
         match getitem body "data" with
         | inl e => Raise e
         | inr data => Return data
         end
     | Raise e => Raise e
     | OutOfFuel => OutOfFuel
     end,
     (tr ++ [Request (get_request self url_suffix)])%list).
Proof.
  unfold bind. rewrite _get_run.
  destruct (decoded 200 _) as [v | e |]; try reflexivity.
  rewrite lift_run. destruct (getitem v "data"); reflexivity.
Qed.

(** C6: each of the five operations of the client sends exactly one request,
    whatever comes back, and a response whose status is not the one the
    operation expects (200 for the reads, 201 for the trigger) makes it raise
    a [RuntimeError] that carries the raw body; with the expected status the
    helpers [_get] and [_post] return the decoded body. *)
Theorem api_single_request_and_status (self : Sinter) (tr : trace)
  (project_id job_id definition_id : pyval) :
  Forall
    (fun '(operation, rq, expected) =>
       snd (operation tr) = (tr ++ [Request rq])%list /\
       forall r, serve tr rq = Responded r -> status_code r <> expected ->
                 fst (operation tr) = Raise (RuntimeError (content r)))
    (operations self project_id job_id definition_id) /\
  (forall url_suffix r v,
      serve tr (get_request self url_suffix) = Responded r ->
      status_code r = 200 -> json_loads (content r) = Some v ->
      _get self url_suffix tr =
        (Return v, (tr ++ [Request (get_request self url_suffix)])%list)) /\
  (forall url_suffix r v,
      serve tr (post_request self url_suffix) = Responded r ->
      status_code r = 201 -> json_loads (content r) = Some v ->
      _post self url_suffix tr =
        (Return v, (tr ++ [Request (post_request self url_suffix)])%list)).
Proof.
  split; [| split].
  - unfold operations, list_projects, get_project, list_job_definitions,
      get_job_run, trigger_job_run.
    repeat apply Forall_cons; try apply Forall_nil;
      rewrite ?data_of_get_run, ?_get_run, ?_post_run; cbn [fst snd];
      (split; [reflexivity |]); intros r Hr Hcode;
      rewrite Hr, (decoded_other _ r Hcode); reflexivity.
  - intros url_suffix r v Hr Hcode Hv.
    rewrite _get_run, Hr, (decoded_expected 200 r v Hcode Hv). reflexivity.
  - intros url_suffix r v Hr Hcode Hv.
    rewrite _post_run, Hr, (decoded_expected 201 r v Hcode Hv). reflexivity.
Qed.

End ClientFacts.

(** ** The bounded-retry fetch *)

Section RetryFacts.

Context {builtins : Builtins} {service : Service}.

Variables (self : Sinter) (project_id job_id : pyval).

Local Abbreviation rq := (run_request self project_id job_id).
Local Abbreviation failed := (failed_attempt self project_id job_id).
Local Abbreviation after k tr := (after_failures k self project_id job_id tr).
Local Abbreviation refused tr := (refused_at self project_id job_id tr).

Lemma get_job_run_run tr :
  get_job_run self project_id job_id tr =
    (decoded 200 (serve tr rq), (tr ++ [Request rq])%list).
Proof. unfold get_job_run. apply _get_run. Qed.

Lemma after_failures_S k tr :
  after (S k) tr = (after k tr ++ failed)%list.
Proof.
  revert tr. induction k as [| k IH]; intros tr; [reflexivity |].
  change (after (S (S k)) tr) with (after (S k) (tr ++ failed)%list).
  rewrite IH. reflexivity.
Qed.

Lemma attempt_refused n tr :
  refused tr ->
  try_get_job_run_loop (S n) self project_id job_id tr =
    try_get_job_run_loop n self project_id job_id (tr ++ failed)%list.
Proof.
  intros (r & Hr & Hcode). cbn [try_get_job_run_loop].
  unfold try_except_RuntimeError at 1. unfold bind at 1.
  rewrite get_job_run_run, Hr, (decoded_other 200 r Hcode).
  unfold bind, print, time_sleep, emit.
  rewrite <- !app_assoc. reflexivity.
Qed.

Lemma attempt_returns n tr job :
  decoded 200 (serve tr rq) = Return job ->
  try_get_job_run_loop (S n) self project_id job_id tr =
    (Return job, (tr ++ [Request rq])%list).
Proof.
  intros H. cbn [try_get_job_run_loop].
  unfold try_except_RuntimeError at 1. unfold bind at 1.
  rewrite get_job_run_run, H. reflexivity.
Qed.

Lemma attempt_raises_other n tr e :
  decoded 200 (serve tr rq) = Raise e ->
  (forall arg, e <> RuntimeError arg) ->
  try_get_job_run_loop (S n) self project_id job_id tr =
    (Raise e, (tr ++ [Request rq])%list).
Proof.
  intros H He. cbn [try_get_job_run_loop].
  unfold try_except_RuntimeError at 1. unfold bind at 1.
  rewrite get_job_run_run, H.
  destruct e; try reflexivity. exfalso. eapply He. reflexivity.
Qed.

Lemma refused_prefix n tr :
  (forall i, (i < S n)%nat -> refused (after i tr)) ->
  refused tr /\ (forall i, (i < n)%nat -> refused (after i (tr ++ failed)%list)).
Proof.
  intros H. split.
  - apply (H O). lia.
  - intros i Hi. apply (H (S i)). lia.
Qed.

(** All [n] attempts refused: the loop ends in its final [raise]. *)
Lemma loop_exhausted n tr :
  (forall i, (i < n)%nat -> refused (after i tr)) ->
  try_get_job_run_loop n self project_id job_id tr =
    (Raise (RuntimeError (too_many_failures job_id)), after n tr).
Proof.
  revert tr. induction n as [| n IH]; intros tr H; [reflexivity |].
  apply refused_prefix in H. destruct H as [H0 H].
  rewrite (attempt_refused n tr H0). apply IH. exact H.
Qed.

(** [k] attempts refused and the next one answered. *)
Lemma loop_returns n k tr job :
  (k < n)%nat ->
  (forall i, (i < k)%nat -> refused (after i tr)) ->
  decoded 200 (serve (after k tr) rq) = Return job ->
  try_get_job_run_loop n self project_id job_id tr =
    (Return job, (after k tr ++ [Request rq])%list).
Proof.
  revert n tr. induction k as [| k IH]; intros n tr Hk H Hjob.
  - destruct n as [| n]; [lia |]. apply attempt_returns. exact Hjob.
  - destruct n as [| n]; [lia |].
    apply refused_prefix in H. destruct H as [H0 H].
    rewrite (attempt_refused n tr H0). apply IH; [lia | exact H | exact Hjob].
Qed.

(** [k] attempts refused and the next one ended by another exception. *)
Lemma loop_raises_other n k tr e :
  (k < n)%nat ->
  (forall i, (i < k)%nat -> refused (after i tr)) ->
  decoded 200 (serve (after k tr) rq) = Raise e ->
  (forall arg, e <> RuntimeError arg) ->
  try_get_job_run_loop n self project_id job_id tr =
    (Raise e, (after k tr ++ [Request rq])%list).
Proof.
  revert n tr. induction k as [| k IH]; intros n tr Hk H Hjob He.
  - destruct n as [| n]; [lia |]. apply attempt_raises_other; assumption.
  - destruct n as [| n]; [lia |].
    apply refused_prefix in H. destruct H as [H0 H].
    rewrite (attempt_refused n tr H0). apply IH; [lia | exact H | exact Hjob | exact He].
Qed.

Lemma count_sleeps_app secs tr1 tr2 :
  count_sleeps secs (tr1 ++ tr2)%list =
    (count_sleeps secs tr1 + count_sleeps secs tr2)%nat.
Proof. unfold count_sleeps. rewrite filter_app, length_app. reflexivity. Qed.

Lemma requests_in_app tr1 tr2 :
  requests_in (tr1 ++ tr2)%list = (requests_in tr1 + requests_in tr2)%nat.
Proof. unfold requests_in. rewrite filter_app, length_app. reflexivity. Qed.

Lemma after_failures_counts k tr :
  requests_in (after k tr) = (requests_in tr + k)%nat /\
  count_sleeps 10 (after k tr) = (count_sleeps 10 tr + k)%nat /\
  count_sleeps 30 (after k tr) = count_sleeps 30 tr.
Proof.
  induction k as [| k (IHr & IH10 & IH30)].
  - cbn [after_failures]. repeat split; lia.
  - rewrite after_failures_S, requests_in_app, !count_sleeps_app, IHr, IH10, IH30.
    cbn. repeat split; lia.
Qed.

(** C2 (amended): with [n] the number of iterations of [range(max_tries)],
    the fetch raises its own error exactly when [n] consecutive attempts
    were refused with a status other than 200, having sent [n] requests;
    when fewer than [n] attempts are refused and the next one is answered,
    it returns that attempt's result and sends nothing more; and an
    attempt that ends in an exception other than [RuntimeError] is not
    retried: the exception goes through at once. *)
Theorem try_get_job_run_bounded (max_tries : Z) (tr : trace) :
  let n := Z.to_nat max_tries in
  ((forall i, (i < n)%nat -> refused (after i tr)) ->
   fst (try_get_job_run self project_id job_id max_tries tr) =
     Raise (RuntimeError (too_many_failures job_id)) /\
   requests_in (snd (try_get_job_run self project_id job_id max_tries tr)) =
     (requests_in tr + n)%nat) /\
  (forall k job,
      (k < n)%nat ->
      (forall i, (i < k)%nat -> refused (after i tr)) ->
      decoded 200 (serve (after k tr) rq) = Return job ->
      fst (try_get_job_run self project_id job_id max_tries tr) = Return job /\
      requests_in (snd (try_get_job_run self project_id job_id max_tries tr)) =
        (requests_in tr + k + 1)%nat) /\
  (forall k e,
      (k < n)%nat ->
      (forall i, (i < k)%nat -> refused (after i tr)) ->
      decoded 200 (serve (after k tr) rq) = Raise e ->
      (forall arg, e <> RuntimeError arg) ->
      fst (try_get_job_run self project_id job_id max_tries tr) = Raise e /\
      requests_in (snd (try_get_job_run self project_id job_id max_tries tr)) =
        (requests_in tr + k + 1)%nat).
Proof.
  intros n. unfold try_get_job_run. fold n. split; [| split].
  - intros H. rewrite (loop_exhausted n tr H). cbn [fst snd].
    split; [reflexivity | apply after_failures_counts].
  - intros k job Hk H Hjob. rewrite (loop_returns n k tr job Hk H Hjob).
    cbn [fst snd]. split; [reflexivity |].
    rewrite requests_in_app. rewrite (proj1 (after_failures_counts k tr)).
    reflexivity.
  - intros k e Hk H Hjob He. rewrite (loop_raises_other n k tr e Hk H Hjob He).
    cbn [fst snd]. split; [reflexivity |].
    rewrite requests_in_app. rewrite (proj1 (after_failures_counts k tr)).
    reflexivity.
Qed.

(** C8 (amended): when the attempts are exhausted the error is a
    [RuntimeError] whose message is "Too many failures (<job id>) while
    querying for job status": it names the job id, and it is the same
    message for every attempt count. *)
Theorem exhausted_message_names_job_id (max_tries : Z) (tr : trace) :
  (forall i, (i < Z.to_nat max_tries)%nat -> refused (after i tr)) ->
  fst (try_get_job_run self project_id job_id max_tries tr) =
    Raise (RuntimeError
             ("Too many failures (" ++ str job_id
                ++ ") while querying for job status")) /\
  occurs_in (str job_id)
    ("Too many failures (" ++ str job_id ++ ") while querying for job status").
Proof.
  intros H. unfold try_get_job_run. rewrite (loop_exhausted _ tr H).
  split; [reflexivity |].
  exists "Too many failures (", ") while querying for job status". reflexivity.
Qed.


End RetryFacts.

(** ** The polling loop *)

Section PollFacts.

Context {builtins : Builtins} {service : Service}.

Variables (self : Sinter) (project_id job_id : pyval).

Local Abbreviation fetch := (try_get_job_run self project_id job_id default_max_tries).
Local Abbreviation poll fuel := (block_until_complete fuel self project_id job_id).
Local Abbreviation line name := (Print (status_line job_id name)).

Lemma is_terminal_In name :
  is_terminal name = true <-> In name terminal_names.
Proof.
  unfold is_terminal, terminal_names. rewrite existsb_exists. split.
  - intros (x & Hx & Heq). apply String.eqb_eq in Heq. subst x. exact Hx.
  - intros H. exists name. split; [exact H | apply String.eqb_refl].
Qed.

Lemma is_terminal_not_In name :
  is_terminal name = false <-> ~ In name terminal_names.
Proof.
  rewrite <- is_terminal_In. destruct (is_terminal name); split; intros H;
    try reflexivity; try discriminate; try (intros H'; discriminate H').
  exfalso. apply H. reflexivity.
Qed.

(** One turn of the loop. *)
Lemma poll_S fuel tr :
  poll (S fuel) tr =
    match fetch tr with
    | (Return job, tr1) =>
        match status_name_of job with
        | inl e => (Raise e, tr1)
        | inr name =>
            if is_terminal name
            then (Return job, (tr1 ++ [line name])%list)
            else poll fuel (tr1 ++ [line name; Sleep query_sleep])%list
        end
    | (Raise e, tr1) => (Raise e, tr1)
    | (OutOfFuel, tr1) => (OutOfFuel, tr1)
    end.
Proof.
  cbn [block_until_complete]. unfold bind at 1.
  destruct (fetch tr) as [[job | e |] tr1]; try reflexivity.
  unfold bind at 1. rewrite lift_run.
  destruct (status_name_of job) as [e | name]; [reflexivity |].
  unfold bind at 1. unfold print at 1, emit at 1. fold (status_line job_id name).
  destruct (is_terminal name); [reflexivity |].
  unfold bind, time_sleep, emit. rewrite <- app_assoc. reflexivity.
Qed.

(** The fetch sleeps 10 seconds at a time, never the 30 seconds of the
    loop. *)
Lemma loop_no_query_sleep n tr :
  count_sleeps 30
    (snd (try_get_job_run_loop n self project_id job_id tr)) =
    count_sleeps 30 tr.
Proof.
  revert tr. induction n as [| n IH]; intros tr; [reflexivity |].
  cbn [try_get_job_run_loop].
  unfold try_except_RuntimeError at 1. unfold bind at 1.
  rewrite get_job_run_run.
  destruct (decoded 200 _) as [job | e |]; cbn [ret snd];
    try (rewrite count_sleeps_app; cbn; lia).
  destruct e; cbn [snd]; try (rewrite count_sleeps_app; cbn; lia).
  unfold bind, print, time_sleep, emit. rewrite IH, !count_sleeps_app. cbn. lia.
Qed.

Lemma fetch_no_query_sleep tr r tr1 :
  fetch tr = (r, tr1) -> count_sleeps 30 tr1 = count_sleeps 30 tr.
Proof.
  intros H. unfold try_get_job_run in H.
  pose proof (loop_no_query_sleep (Z.to_nat default_max_tries) tr) as Hc.
  rewrite H in Hc. exact Hc.
Qed.

Lemma pending_sleeps tr jobs tr' :
  pending self project_id job_id tr jobs tr' ->
  count_sleeps 30 tr' = (count_sleeps 30 tr + List.length jobs)%nat.
Proof.
  induction 1 as [tr | tr tr1 tr2 job name jobs Hfetch Hname Hnt Hrest IH].
  - cbn. lia.
  - rewrite IH, count_sleeps_app, (fetch_no_query_sleep _ _ _ Hfetch).
    cbn. lia.
Qed.



Lemma poll_stops fuel tr job tr1 name :
  fetch tr = (Return job, tr1) ->
  status_name_of job = inr name ->
  In name terminal_names ->
  poll (S fuel) tr = (Return job, (tr1 ++ [line name])%list).
Proof.
  intros Hfetch Hname Hterm. rewrite poll_S, Hfetch, Hname.
  apply is_terminal_In in Hterm. rewrite Hterm. reflexivity.
Qed.

Lemma poll_goes_on fuel tr job tr1 name :
  fetch tr = (Return job, tr1) ->
  status_name_of job = inr name ->
  ~ In name terminal_names ->
  poll (S fuel) tr = poll fuel (tr1 ++ [line name; Sleep query_sleep])%list.
Proof.
  intros Hfetch Hname Hterm. rewrite poll_S, Hfetch, Hname.
  apply is_terminal_not_In in Hterm. rewrite Hterm. reflexivity.
Qed.

(** Payloads without a terminal status, then one with: given fuel for
    these turns the loop returns the last one. *)
Lemma poll_completes fuel tr jobs tr2 job tr3 name :
  pending self project_id job_id tr jobs tr2 ->
  fetch tr2 = (Return job, tr3) ->
  status_name_of job = inr name ->
  In name terminal_names ->
  (List.length jobs < fuel)%nat ->
  poll fuel tr = (Return job, (tr3 ++ [line name])%list).
Proof.
  intros Hpend Hfetch Hname Hterm. revert fuel Hfetch.
  induction Hpend as [tr0 | tr0 tr1 tr2 job0 name0 jobs Hf0 Hn0 Ht0 Hrest IH];
    intros fuel Hfetch Hfuel.
  - destruct fuel as [| fuel]; [cbn in Hfuel; lia |].
    apply poll_stops; assumption.
  - destruct fuel as [| fuel]; [cbn in Hfuel; lia |].
    rewrite (poll_goes_on fuel tr0 job0 tr1 name0 Hf0 Hn0 Ht0).
    apply IH; [exact Hfetch | cbn in Hfuel; lia].
Qed.

(** C3: in a turn of the loop whose fetched status is Success, Error or
    Cancelled the payload is returned at once, the trace ending with the
    status line and no sleep; in a turn whose status is any other the loop
    sleeps 30 seconds and takes its next turn.  So when the fetches give a
    sequence of payloads without a terminal status and then one with a
    terminal status, the loop returns that one, given fuel for these turns,
    and has slept 30 seconds once per payload of the sequence. *)
Theorem block_until_complete_stops_at_terminal (tr : trace) :
  (forall fuel job tr1 name,
      fetch tr = (Return job, tr1) ->
      status_name_of job = inr name ->
      In name ["Success"; "Error"; "Cancelled"] ->
      poll (S fuel) tr = (Return job, (tr1 ++ [line name])%list)) /\
  (forall fuel job tr1 name,
      fetch tr = (Return job, tr1) ->
      status_name_of job = inr name ->
      ~ In name ["Success"; "Error"; "Cancelled"] ->
      poll (S fuel) tr = poll fuel (tr1 ++ [line name; Sleep 30])%list) /\
  (forall fuel jobs tr2 job tr3 name,
      pending self project_id job_id tr jobs tr2 ->
      fetch tr2 = (Return job, tr3) ->
      status_name_of job = inr name ->
      In name ["Success"; "Error"; "Cancelled"] ->
      (List.length jobs < fuel)%nat ->
      poll fuel tr = (Return job, (tr3 ++ [line name])%list) /\
      count_sleeps 30 (tr3 ++ [line name])%list =
        (count_sleeps 30 tr + List.length jobs)%nat).
Proof.
  split; [| split].
  - intros fuel job tr1 name. apply poll_stops.
  - intros fuel job tr1 name. apply poll_goes_on.
  - intros fuel jobs tr2 job tr3 name Hpend Hfetch Hname Hterm Hfuel. split.
    + eapply poll_completes; eassumption.
    + rewrite count_sleeps_app, (fetch_no_query_sleep _ _ _ Hfetch),
        (pending_sleeps _ _ _ Hpend).
      cbn. lia.
Qed.

End PollFacts.

(** ** run_job *)

Section RunJobFacts.

Context {builtins : Builtins} {service : Service}.

Variables (self : Sinter) (project_id job_name : pyval).

Local Abbreviation defs_rq :=
  (get_request self (definitions_url self project_id)).
Local Abbreviation trigger_rq definition_id :=
  (post_request self (trigger_url self project_id definition_id)).

(** The whole of [run_job], step by step. *)
Lemma run_job_run fuel tr :
  run_job fuel self project_id job_name tr =
    let tr1 := (tr ++ [Request defs_rq])%list in
    match decoded 200 (serve tr defs_rq) with
    | Return definitions =>
        match job_defs_of definitions job_name with
        | inl e => (Raise e, tr1)
        | inr [job_def] =>
            match getitem job_def "id" with
            | inl e => (Raise e, tr1)
            | inr definition_id =>
                let tr2 := (tr1 ++ [Request (trigger_rq definition_id)])%list in
                match decoded 201 (serve tr1 (trigger_rq definition_id)) with
                | Return trigger_resp =>
                    match getitem trigger_resp "id" with
                    | inl e => (Raise e, tr2)
                    | inr job_id =>
                        match block_until_complete fuel self project_id job_id tr2 with
                        | (Return job, tr3) =>
                            match status_name_of job with
                            | inl e => (Raise e, tr3)
                            | inr status_name =>
                                if String.eqb status_name "Success"
                                then (Return job, tr3)
                                else (Raise (AirflowException (run_failed status_name)),
                                      tr3)
                            end
                        | (Raise e, tr3) => (Raise e, tr3)
                        | (OutOfFuel, tr3) => (OutOfFuel, tr3)
                        end
                    end
                | Raise e => (Raise e, tr2)
                | OutOfFuel => (OutOfFuel, tr2)
                end
            end
        | inr job_defs =>
            (Raise (AirflowException (jobs_found (List.length job_defs) job_name)),
             tr1)
        end
    | Raise e => (Raise e, tr1)
    | OutOfFuel => (OutOfFuel, tr1)
    end.
Proof.
  unfold run_job, list_job_definitions, trigger_job_run.
  unfold bind at 1. rewrite _get_run. cbv zeta.
  destruct (decoded 200 _) as [definitions | e |]; try reflexivity.
  unfold bind at 1. rewrite lift_run.
  destruct (job_defs_of definitions job_name) as [e | job_defs]; [reflexivity |].
  destruct job_defs as [| job_def [| job_def' rest]]; try reflexivity.
  unfold bind at 1. rewrite lift_run.
  destruct (getitem job_def "id") as [e | definition_id]; [reflexivity |].
  unfold bind at 1. rewrite _post_run.
  destruct (decoded 201 _) as [trigger_resp | e |]; try reflexivity.
  unfold bind at 1. rewrite lift_run.
  destruct (getitem trigger_resp "id") as [e | job_id]; [reflexivity |].
  unfold bind at 1.
  destruct (block_until_complete fuel self project_id job_id _)
    as [[job | e |] tr3]; try reflexivity.
  unfold bind at 1. rewrite lift_run.
  destruct (status_name_of job) as [e | status_name]; [reflexivity |].
  destruct (String.eqb status_name "Success"); reflexivity.
Qed.

Lemma listing_returned tr definitions tr1 :
  list_job_definitions self project_id tr = (Return definitions, tr1) ->
  decoded 200 (serve tr defs_rq) = Return definitions /\
  tr1 = (tr ++ [Request defs_rq])%list.
Proof.
  unfold list_job_definitions. rewrite _get_run. intros H.
  injection H as H1 H2. split; [exact H1 | symmetry; exact H2].
Qed.

Lemma trigger_returned tr definition_id trigger_resp tr2 :
  trigger_job_run self project_id definition_id tr = (Return trigger_resp, tr2) ->
  decoded 201 (serve tr (trigger_rq definition_id)) = Return trigger_resp /\
  tr2 = (tr ++ [Request (trigger_rq definition_id)])%list.
Proof.
  unfold trigger_job_run. rewrite _post_run. intros H.
  injection H as H1 H2. split; [exact H1 | symmetry; exact H2].
Qed.

(** [run_job] up to the start of the polling, when exactly one definition
    matches and the trigger is accepted. *)
Lemma run_job_polls fuel tr definitions tr1 job_def definition_id
  trigger_resp tr2 job_id :
  list_job_definitions self project_id tr = (Return definitions, tr1) ->
  job_defs_of definitions job_name = inr [job_def] ->
  getitem job_def "id" = inr definition_id ->
  trigger_job_run self project_id definition_id tr1 = (Return trigger_resp, tr2) ->
  getitem trigger_resp "id" = inr job_id ->
  run_job fuel self project_id job_name tr =
    match block_until_complete fuel self project_id job_id tr2 with
    | (Return job, tr3) =>
        match status_name_of job with
        | inl e => (Raise e, tr3)
        | inr status_name =>
            if String.eqb status_name "Success"
            then (Return job, tr3)
            else (Raise (AirflowException (run_failed status_name)), tr3)
        end
    | (Raise e, tr3) => (Raise e, tr3)
    | (OutOfFuel, tr3) => (OutOfFuel, tr3)
    end /\
  tr2 = (tr ++ [Request defs_rq; Request (trigger_rq definition_id)])%list.
Proof.
  intros Hlist Hdefs Hid Htrig Hjob.
  apply listing_returned in Hlist. destruct Hlist as [Hlist ->].
  apply trigger_returned in Htrig. destruct Htrig as [Htrig ->].
  rewrite run_job_run. cbv zeta. rewrite Hlist, Hdefs, Hid, Htrig, Hjob.
  split; [reflexivity |]. rewrite <- app_assoc. reflexivity.
Qed.

(** C5: when the number of definitions with the requested name is not one,
    [run_job] raises "<n> jobs found for <name>" right after the listing:
    the listing request is the only one sent, so no trigger request is
    posted and no run is created. *)
Theorem run_job_no_trigger_unless_one (fuel : nat) (tr tr1 : trace)
  (definitions : pyval) (job_defs : list pyval) :
  list_job_definitions self project_id tr = (Return definitions, tr1) ->
  job_defs_of definitions job_name = inr job_defs ->
  List.length job_defs <> 1%nat ->
  run_job fuel self project_id job_name tr =
    (Raise (AirflowException (jobs_found (List.length job_defs) job_name)),
     (tr ++ [Request defs_rq])%list) /\
  filter is_post (snd (run_job fuel self project_id job_name tr)) =
    filter is_post tr.
Proof.
  intros Hlist Hdefs Hlen.
  apply listing_returned in Hlist. destruct Hlist as [Hlist ->].
  assert (Hrun : run_job fuel self project_id job_name tr =
                   (Raise (AirflowException
                             (jobs_found (List.length job_defs) job_name)),
                    (tr ++ [Request defs_rq])%list)).
  { rewrite run_job_run. cbv zeta. rewrite Hlist, Hdefs.
    destruct job_defs as [| d [| d' rest]]; try reflexivity.
    exfalso. apply Hlen. reflexivity. }
  split; [exact Hrun |].
  rewrite Hrun. cbn [snd]. rewrite filter_app. cbn. apply app_nil_r.
Qed.


(** C9: on a 200 response with a decodable body, [list_job_definitions]
    returns the body itself, while [list_projects] and [get_project] return
    what the body has under 'data'.  The filter of [run_job] thus runs over
    the body: an exception of the filter goes through before any trigger,
    a body that is a list is filtered element by element, and a body that
    is a non-empty dict, such as one that wraps its records under 'data',
    makes [run_job] raise [TypeError], its keys being strings. *)
Theorem list_job_definitions_returns_body (fuel : nat) (tr : trace)
  (body : pyval) :
  (forall r, serve tr defs_rq = Responded r ->
             status_code r = 200 -> json_loads (content r) = Some body ->
             fst (list_job_definitions self project_id tr) = Return body) /\
  (forall r, serve tr (get_request self (projects_url self)) = Responded r ->
             status_code r = 200 -> json_loads (content r) = Some body ->
             fst (list_projects self tr) =
               match getitem body "data" with
               | inl e => Raise e
               | inr data => Return data
               end) /\
  (forall r, serve tr (get_request self (project_url self project_id))
               = Responded r ->
             status_code r = 200 -> json_loads (content r) = Some body ->
             fst (get_project self project_id tr) =
               match getitem body "data" with
               | inl e => Raise e
               | inr data => Return data
               end) /\
  (forall e,
      fst (list_job_definitions self project_id tr) = Return body ->
      job_defs_of body job_name = inl e ->
      run_job fuel self project_id job_name tr =
        (Raise e, (tr ++ [Request defs_rq])%list)) /\
  (forall ds, body = PList ds ->
              job_defs_of body job_name = select_by_name ds job_name) /\
  (forall key v items,
      body = PDict ((key, v) :: items) ->
      fst (list_job_definitions self project_id tr) = Return body ->
      run_job fuel self project_id job_name tr =
        (Raise TypeError, (tr ++ [Request defs_rq])%list)).
Proof.
  assert (Hraise : forall e,
             fst (list_job_definitions self project_id tr) = Return body ->
             job_defs_of body job_name = inl e ->
             run_job fuel self project_id job_name tr =
               (Raise e, (tr ++ [Request defs_rq])%list)).
  { intros e Hlist Hdefs. unfold list_job_definitions in Hlist.
    rewrite _get_run in Hlist. cbn [fst] in Hlist.
    rewrite run_job_run. cbv zeta. rewrite Hlist, Hdefs. reflexivity. }
  repeat split.
  - intros r Hr Hcode Hbody. unfold list_job_definitions.
    rewrite _get_run, Hr. cbn [fst]. apply decoded_expected; assumption.
  - intros r Hr Hcode Hbody. unfold list_projects, bind.
    rewrite _get_run, Hr, (decoded_expected 200 r body Hcode Hbody), lift_run.
    destruct (getitem body "data"); reflexivity.
  - intros r Hr Hcode Hbody. unfold get_project, bind.
    rewrite _get_run, Hr, (decoded_expected 200 r body Hcode Hbody), lift_run.
    destruct (getitem body "data"); reflexivity.
  - exact Hraise.
  - intros ds ->. reflexivity.
  - intros key v items -> Hlist. apply Hraise; [exact Hlist | reflexivity].
Qed.

End RunJobFacts.

(** ** Occurrences in concrete strings *)

Lemma has_prefix_spec (p s : string) :
  has_prefix p s = true <-> exists after : string, s = p ++ after.
Proof.
  revert s. induction p as [| a p IH]; intros s.
  - split; [intros _; exists s; reflexivity | reflexivity].
  - destruct s as [| b s]; cbn.
    + split; [discriminate | intros (after & H); discriminate H].
    + rewrite andb_true_iff, Ascii.eqb_eq, IH. split.
      * intros (-> & after & ->). exists after. reflexivity.
      * intros (after & H). injection H as -> ->. split; [reflexivity |].
        exists after. reflexivity.
Qed.

Lemma occurs_inb_spec (needle hay : string) :
  occurs_inb needle hay = true <-> occurs_in needle hay.
Proof.
  unfold occurs_in. induction hay as [| c hay IH]; cbn [occurs_inb].
  - rewrite orb_false_r, has_prefix_spec. split.
    + intros (after & H). exists "", after. exact H.
    + intros (before & after & H). destruct before as [| b before];
        [| discriminate H].
      exists after. exact H.
  - rewrite orb_true_iff, has_prefix_spec, IH. split.
    + intros [(after & H) | (before & after & H)].
      * exists "", after. exact H.
      * exists (String c before), after. cbn. rewrite H. reflexivity.
    + intros (before & after & H). destruct before as [| b before].
      * left. exists after. exact H.
      * right. injection H as _ H. exists before, after. exact H.
Qed.

(** ** The statements on concrete exchanges *)

Lemma refusing_service_refuses (i : nat) :
  (i < 3)%nat ->
  @refused_at cpython refusing_service demo (PInt 5) (PInt 7)
    (@after_failures cpython i demo (PInt 5) (PInt 7) []).
Proof.
  intros Hi. destruct i as [| [| [| i]]]; [| | | lia];
    eexists; (split; [reflexivity | discriminate]).
Defined.

Lemma api_single_request_and_status_witness :
  @_get cpython (run_service 10) demo "/accounts/42/projects/5/definitions/" [] =
    (Return two_definitions,
     [Request (@get_request cpython demo "/accounts/42/projects/5/definitions/")]).
Proof.
  apply (proj1 (proj2 (@api_single_request_and_status cpython (run_service 10)
                         demo [] (PInt 5) (PInt 900) (PInt 12)))
           "/accounts/42/projects/5/definitions/"
           (mkResponse 200 (json_dumps two_definitions)) two_definitions
           eq_refl eq_refl eq_refl).
Defined.

Lemma try_get_job_run_bounded_witness :
  fst (@try_get_job_run cpython refusing_service demo (PInt 5) (PInt 7) 3 []) =
    Raise (RuntimeError "Too many failures (7) while querying for job status") /\
  requests_in
    (snd (@try_get_job_run cpython refusing_service demo (PInt 5) (PInt 7) 3 []))
    = 3%nat.
Proof.
  apply (proj1 (@try_get_job_run_bounded cpython refusing_service demo
                  (PInt 5) (PInt 7) 3 [])).
  exact refusing_service_refuses.
Defined.

(** C2, as stated, fails: the first answer has status 200 and a body that is
    not JSON, and the fetch raises [ValueError] after this one attempt of its
    three, although the second answer would have been a payload. *)
Lemma try_get_job_run_raises_early :
  fst (@try_get_job_run cpython html_service demo (PInt 5) (PInt 7) 3 []) =
    Raise ValueError /\
  requests_in
    (snd (@try_get_job_run cpython html_service demo (PInt 5) (PInt 7) 3 []))
    = 1%nat /\
  fst (@get_job_run cpython html_service demo (PInt 5) (PInt 7)
         [Request (@run_request cpython demo (PInt 5) (PInt 7))]) =
    Return (payload 10).
Proof. repeat split; vm_compute; reflexivity. Qed.

Lemma exhausted_message_names_job_id_witness :
  fst (@try_get_job_run cpython refusing_service demo (PInt 5) (PInt 7) 3 []) =
    Raise (RuntimeError "Too many failures (7) while querying for job status") /\
  occurs_in "7" "Too many failures (7) while querying for job status".
Proof.
  apply (@exhausted_message_names_job_id cpython refusing_service demo
           (PInt 5) (PInt 7) 3 []).
  exact refusing_service_refuses.
Defined.

(** C8, as stated, fails: after three refused attempts of the run 7 the
    message is "Too many failures (7) while querying for job status", in
    which the attempt count 3 does not occur. *)
Lemma exhausted_message_omits_attempt_count :
  fst (@try_get_job_run cpython refusing_service demo (PInt 5) (PInt 7) 3 []) =
    Raise (RuntimeError "Too many failures (7) while querying for job status") /\
  occurs_inb (py_str (PInt 3))
    "Too many failures (7) while querying for job status" = false /\
  occurs_inb (py_str (PInt 7))
    "Too many failures (7) while querying for job status" = true.
Proof. repeat split; vm_compute; reflexivity. Qed.

(** The same in terms of [occurs_in]. *)
Lemma attempt_count_absent :
  ~ occurs_in "3" "Too many failures (7) while querying for job status".
Proof.
  intros H. apply occurs_inb_spec in H. vm_compute in H. discriminate H.
Qed.


(** The two turns of the loop before the last fetch of [run_service], for a
    run that ends in Error. *)
Lemma run_service_pending_Error :
  exists tr3,
    @pending cpython (run_service 20) demo (PInt 5) (PInt 900)
      [ Request (@get_request cpython demo "/accounts/42/projects/5/definitions/");
        Request (@post_request cpython demo
                   "/accounts/42/projects/5/definitions/12/runs/") ]
      [payload 1; payload 3] tr3 /\
    @try_get_job_run cpython (run_service 20) demo (PInt 5) (PInt 900) 3 tr3 =
      (Return (payload 20),
       (tr3 ++ [Request (@run_request cpython demo (PInt 5) (PInt 900))])%list).
Proof. two_turns_then_fetch. Defined.

Lemma block_until_complete_stops_at_terminal_witness :
  fst (@block_until_complete cpython (run_service 20) 3 demo (PInt 5) (PInt 900)
         [ Request (@get_request cpython demo "/accounts/42/projects/5/definitions/");
           Request (@post_request cpython demo
                      "/accounts/42/projects/5/definitions/12/runs/") ]) =
    Return (payload 20).
Proof.
  destruct run_service_pending_Error as (tr3 & Hpend & Hfetch).
  rewrite (proj1 (proj2 (proj2 (@block_until_complete_stops_at_terminal cpython
                                  (run_service 20) demo (PInt 5) (PInt 900) _))
                    3%nat _ _ _ _ "Error" Hpend Hfetch eq_refl
                    (or_intror (or_introl eq_refl)) (le_n 3))).
  reflexivity.
Defined.

Lemma run_job_no_trigger_unless_one_witness :
  @run_job cpython twins_service 3 demo (PInt 5) (PStr "nightly") [] =
    (Raise (AirflowException "2 jobs found for nightly"),
     [Request (@get_request cpython demo "/accounts/42/projects/5/definitions/")]) /\
  @run_job cpython (run_service 10) 3 demo (PInt 5) (PStr "weekly") [] =
    (Raise (AirflowException "0 jobs found for weekly"),
     [Request (@get_request cpython demo "/accounts/42/projects/5/definitions/")]).
Proof.
  split.
  - apply (proj1 (@run_job_no_trigger_unless_one cpython twins_service demo
                    (PInt 5) (PStr "nightly") 3 [] _
                    (PList [record 11 "nightly"; record 12 "nightly"])
                    [record 11 "nightly"; record 12 "nightly"]
                    eq_refl eq_refl ltac:(discriminate))).
  - apply (proj1 (@run_job_no_trigger_unless_one cpython (run_service 10) demo
                    (PInt 5) (PStr "weekly") 3 [] _ two_definitions []
                    eq_refl eq_refl ltac:(discriminate))).
Defined.


Lemma list_job_definitions_returns_body_witness :
  @run_job cpython wrapped_service 3 demo (PInt 5) (PStr "nightly") [] =
    (Raise TypeError,
     [Request (@get_request cpython demo "/accounts/42/projects/5/definitions/")]).
Proof.
  apply (proj2 (proj2 (proj2 (proj2 (proj2
           (@list_job_definitions_returns_body cpython wrapped_service demo
              (PInt 5) (PStr "nightly") 3 []
              (PDict [("data", two_definitions)]))))))
           "data" two_definitions [] eq_refl eq_refl).
Defined.

(** * Further properties *)

(** ** Classification of arbitrary values *)

(** X1: the lookup raises only [TypeError], and exactly on the values that
    cannot be hashed, lists and dicts; on every other value it gives one of
    the six labels, a bool being classified as the integer it equals. *)
Theorem lookup_fails_only_unhashable (status : pyval) :
  (RunStatus.lookup status = inl TypeError <->
     (exists xs, status = PList xs) \/ (exists items, status = PDict items)) /\
  (forall e, RunStatus.lookup status = inl e -> e = TypeError) /\
  (forall label, RunStatus.lookup status = inr label ->
     In label ["Queued"; "Running"; "Success"; "Error"; "Cancelled"; "Unknown"]) /\
  (forall b, RunStatus.lookup (PBool b) = RunStatus.lookup (PInt (Z.b2z b))).
Proof.
  assert (Hlabel : forall z label,
             match RunStatus.assoc z RunStatus.LOOKUP with
             | Some l => inr l
             | None => inr "Unknown"
             end = (inr label : exn + string) ->
             In label ["Queued"; "Running"; "Success"; "Error"; "Cancelled";
                       "Unknown"]).
  { intros z label. unfold RunStatus.LOOKUP. cbn [RunStatus.assoc].
    repeat match goal with
           | |- context [if ?c then _ else _] => destruct c
           end;
      intros H; injection H as <-; cbn; tauto. }
  split; [split | split; [| split]].
  - intros H. destruct status as [| b | z | s | xs | items];
      cbn [RunStatus.lookup RunStatus.int_key] in H;
      try discriminate H;
      try (destruct (RunStatus.assoc _ RunStatus.LOOKUP); discriminate H).
    + left. exists xs. reflexivity.
    + right. exists items. reflexivity.
  - intros [(xs & ->) | (items & ->)]; reflexivity.
  - intros e H. destruct status as [| b | z | s | xs | items];
      cbn [RunStatus.lookup RunStatus.int_key] in H;
      try discriminate H;
      try (destruct (RunStatus.assoc _ RunStatus.LOOKUP); discriminate H);
      injection H as <-; reflexivity.
  - intros label H. destruct status as [| b | z | s | xs | items];
      cbn [RunStatus.lookup RunStatus.int_key] in H;
      try discriminate H;
      try (eapply Hlabel; exact H);
      injection H as <-; cbn; tauto.
  - intros b. reflexivity.
Qed.

(** ** Every outcome of the bounded-retry fetch *)

Section RetryOutcomes.

Context {builtins : Builtins} {service : Service}.

Variables (self : Sinter) (project_id job_id : pyval).

Local Abbreviation rq := (run_request self project_id job_id).
Local Abbreviation failed := (failed_attempt self project_id job_id).
Local Abbreviation after k tr := (after_failures k self project_id job_id tr).
Local Abbreviation refused tr := (refused_at self project_id job_id tr).
Local Abbreviation polling := (polling_event self project_id job_id).

Lemma decoded_not_OutOfFuel expected rp : decoded expected rp <> OutOfFuel.
Proof.
  unfold decoded. destruct rp as [r |]; [| discriminate].
  destruct (status_code r =? expected); [| discriminate].
  destruct (json_loads (content r)); discriminate.
Qed.

Lemma refused_or_not tr :
  refused tr \/
  (~ refused tr /\ forall arg, decoded 200 (serve tr rq) <> Raise (RuntimeError arg)).
Proof.
  unfold refused_at, decoded. destruct (serve tr rq) as [r |].
  - destruct (Z.eqb_spec (status_code r) 200) as [Heq | Hne].
    + right. split.
      * intros (r' & Hr' & Hcode). injection Hr' as <-. contradiction.
      * intros arg. destruct (json_loads (content r)); discriminate.
    + left. exists r. split; [reflexivity | exact Hne].
  - right. split; [| discriminate].
    intros (r' & Hr' & _). discriminate Hr'.
Qed.

Lemma attempt_not_refused n tr :
  (forall arg, decoded 200 (serve tr rq) <> Raise (RuntimeError arg)) ->
  try_get_job_run_loop (S n) self project_id job_id tr =
    (decoded 200 (serve tr rq), (tr ++ [Request rq])%list).
Proof.
  intros H. cbn [try_get_job_run_loop].
  unfold try_except_RuntimeError at 1. unfold bind at 1.
  rewrite get_job_run_run.
  destruct (decoded 200 (serve tr rq)) as [job | e |]; try reflexivity.
  destruct e; try reflexivity. exfalso. eapply H. reflexivity.
Qed.

(** The loop ends after [k] refused attempts, either all [n] of them or
    fewer and one attempt that was not refused. *)
Lemma loop_outcome n tr :
  exists k,
    (forall i, (i < k)%nat -> refused (after i tr)) /\
    ((k = n /\
      try_get_job_run_loop n self project_id job_id tr =
        (Raise (RuntimeError (too_many_failures job_id)), after n tr)) \/
     ((k < n)%nat /\
      (forall arg, decoded 200 (serve (after k tr) rq) <> Raise (RuntimeError arg)) /\
      try_get_job_run_loop n self project_id job_id tr =
        (decoded 200 (serve (after k tr) rq),
         (after k tr ++ [Request rq])%list))).
Proof.
  revert tr. induction n as [| n IH]; intros tr.
  - exists O. split; [intros i Hi; lia |]. left. split; reflexivity.
  - destruct (refused_or_not tr) as [Href | [_ Hnot]].
    + destruct (IH (tr ++ failed)%list) as (k & Hk & Hcase).
      exists (S k). split.
      * intros [| i] Hi; [exact Href | apply Hk; lia].
      * rewrite (attempt_refused self project_id job_id n tr Href).
        destruct Hcase as [(-> & Hrun) | (Hlt & Hdec & Hrun)].
        -- left. split; [reflexivity | exact Hrun].
        -- right. split; [lia |]. split; [exact Hdec | exact Hrun].
    + exists O. split; [intros i Hi; lia |]. right. split; [lia |].
      split; [exact Hnot | apply attempt_not_refused; exact Hnot].
Qed.

Lemma after_failures_added k tr :
  exists added, after k tr = (tr ++ added)%list /\ Forall polling added.
Proof.
  induction k as [| k (added & Heq & Hall)].
  - exists []. split; [symmetry; apply app_nil_r | constructor].
  - exists (added ++ failed)%list. rewrite after_failures_S, Heq, app_assoc.
    split; [reflexivity |]. apply Forall_app. split; [exact Hall |].
    repeat constructor.
Qed.

(** X2: whatever the service does, the fetch ends, by a result or by an
    exception; it sends at most [max_tries] requests, all of them fetches of
    the run, and sleeps 10 seconds at a time; with a [max_tries] that is zero
    or negative it raises its error at once, without any request. *)
Theorem try_get_job_run_always_ends (max_tries : Z) (tr : trace) :
  fst (try_get_job_run self project_id job_id max_tries tr) <> OutOfFuel /\
  (requests_in (snd (try_get_job_run self project_id job_id max_tries tr)) <=
     requests_in tr + Z.to_nat max_tries)%nat /\
  (exists added,
      snd (try_get_job_run self project_id job_id max_tries tr) =
        (tr ++ added)%list /\
      Forall polling added /\ count_sleeps 30 added = 0%nat) /\
  (max_tries <= 0 ->
   try_get_job_run self project_id job_id max_tries tr =
     (Raise (RuntimeError (too_many_failures job_id)), tr)).
Proof.
  unfold try_get_job_run.
  destruct (loop_outcome (Z.to_nat max_tries) tr) as (k & Hk & Hcase).
  destruct (after_failures_added k tr) as (added & Hadded & Hall).
  pose proof (after_failures_counts self project_id job_id k tr)
    as (Hreq & _ & H30).
  assert (Hnone : count_sleeps 30 added = 0%nat).
  { rewrite Hadded, count_sleeps_app in H30. lia. }
  destruct Hcase as [(-> & Hrun) | (Hlt & Hdec & Hrun)]; rewrite Hrun; cbn [fst snd].
  - split; [discriminate |]. split; [lia |]. split.
    + exists added. repeat split; assumption.
    + intros Hle. replace (Z.to_nat max_tries) with O by lia. reflexivity.
  - split; [apply decoded_not_OutOfFuel |]. split.
    + rewrite requests_in_app, Hreq. cbn. lia.
    + split.
      * exists (added ++ [Request rq])%list. rewrite Hadded, app_assoc.
        split; [reflexivity |]. split.
        -- apply Forall_app. split; [exact Hall | repeat constructor].
        -- rewrite count_sleeps_app, Hnone. reflexivity.
      * intros Hle. lia.
Qed.

End RetryOutcomes.

(** ** Every turn of the polling loop *)

Section PollOutcomes.

Context {builtins : Builtins} {service : Service}.

Variables (self : Sinter) (project_id job_id : pyval).

Local Abbreviation rq := (run_request self project_id job_id).
Local Abbreviation after k tr := (after_failures k self project_id job_id tr).
Local Abbreviation refused tr := (refused_at self project_id job_id tr).
Local Abbreviation polling := (polling_event self project_id job_id).
Local Abbreviation fetch := (try_get_job_run self project_id job_id default_max_tries).
Local Abbreviation poll fuel := (block_until_complete fuel self project_id job_id).
Local Abbreviation line name := (Print (status_line job_id name)).

(** The label of an integer code is terminal exactly for 10, 20 and 30. *)
Lemma lookup_int_terminal (z : Z) (name : string) :
  RunStatus.lookup (PInt z) = inr name ->
  (In name terminal_names <-> In z [10; 20; 30]).
Proof.
  unfold RunStatus.lookup, RunStatus.int_key, RunStatus.LOOKUP.
  cbn [RunStatus.assoc].
  unfold RunStatus.queued, RunStatus.dequeued, RunStatus.running,
    RunStatus.success, RunStatus.error, RunStatus.cancelled, terminal_names.
  repeat match goal with
         | |- context [?k =? z] => destruct (Z.eqb_spec k z) as [<- | ?]
         end;
    intros H; injection H as <-;
    (split; intros H; cbn in H |- *;
     repeat (destruct H as [H | H]; try discriminate H; try lia);
     tauto).
Qed.

Lemma fetch_added tr :
  exists added, snd (fetch tr) = (tr ++ added)%list /\ Forall polling added.
Proof.
  unfold try_get_job_run.
  destruct (loop_outcome self project_id job_id (Z.to_nat default_max_tries) tr)
    as (k & _ & Hcase).
  destruct (after_failures_added self project_id job_id k tr)
    as (added & Hadded & Hall).
  destruct Hcase as [(-> & Hrun) | (_ & _ & Hrun)]; rewrite Hrun; cbn [snd].
  - exists added. split; assumption.
  - exists (added ++ [Request rq])%list. rewrite Hadded, app_assoc.
    split; [reflexivity |]. apply Forall_app. split; [exact Hall |].
    repeat constructor.
Qed.

Lemma fetch_returned_last tr job tr1 :
  fetch tr = (Return job, tr1) ->
  exists earlier, tr1 = (earlier ++ [Request rq])%list.
Proof.
  unfold try_get_job_run.
  destruct (loop_outcome self project_id job_id (Z.to_nat default_max_tries) tr)
    as (k & _ & [(_ & Hrun) | (_ & _ & Hrun)]); rewrite Hrun; intros H.
  - discriminate H.
  - injection H as _ <-. exists (after k tr). reflexivity.
Qed.

Lemma fetch_not_OutOfFuel tr : fst (fetch tr) <> OutOfFuel.
Proof.
  unfold try_get_job_run.
  destruct (loop_outcome self project_id job_id (Z.to_nat default_max_tries) tr)
    as (k & _ & [(_ & Hrun) | (_ & _ & Hrun)]); rewrite Hrun; cbn [fst].
  - discriminate.
  - apply decoded_not_OutOfFuel.
Qed.

Lemma poll_added fuel tr :
  exists added, snd (poll fuel tr) = (tr ++ added)%list /\ Forall polling added.
Proof.
  revert tr. induction fuel as [| fuel IH]; intros tr.
  - exists []. split; [symmetry; apply app_nil_r | constructor].
  - rewrite poll_S.
    destruct (fetch_added tr) as (added & Hadded & Hall).
    destruct (fetch tr) as [[job | e |] tr1]; cbn [snd] in Hadded; subst tr1;
      try (exists added; split; [reflexivity | exact Hall]).
    destruct (status_name_of job) as [e | name];
      [exists added; split; [reflexivity | exact Hall] |].
    destruct (is_terminal name).
    + exists (added ++ [line name])%list. cbn [snd]. rewrite app_assoc.
      split; [reflexivity |]. apply Forall_app. split; [exact Hall |].
      repeat constructor.
    + destruct (IH ((tr ++ added) ++ [line name; Sleep query_sleep])%list)
        as (more & Hmore & Hmall).
      exists (added ++ [line name; Sleep query_sleep] ++ more)%list.
      rewrite Hmore, <- !app_assoc. split; [reflexivity |].
      apply Forall_app. split; [exact Hall |].
      apply Forall_app. split; [| exact Hmall].
      apply Forall_cons; [exact I |].
      apply Forall_cons; [right; reflexivity | apply Forall_nil].
Qed.

(** X3: a fetched payload whose status is an integer ends the loop exactly
    when the integer is 10, 20 or 30; on 1, 2, 3 and on every code the table
    does not know the loop prints the label, sleeps 30 seconds and takes its
    next turn. *)
Theorem poll_stops_on_codes_10_20_30 (fuel : nat) (tr tr1 : trace)
  (job : pyval) (z : Z) (name : string) :
  fetch tr = (Return job, tr1) ->
  getitem job "status" = inr (PInt z) ->
  RunStatus.lookup (PInt z) = inr name ->
  (In z [10; 20; 30] ->
   poll (S fuel) tr = (Return job, (tr1 ++ [line name])%list)) /\
  (~ In z [10; 20; 30] ->
   poll (S fuel) tr = poll fuel (tr1 ++ [line name; Sleep 30])%list).
Proof.
  intros Hfetch Hstatus Hname.
  assert (Hjob : status_name_of job = inr name).
  { unfold status_name_of. rewrite Hstatus. exact Hname. }
  pose proof (lookup_int_terminal z name Hname) as Hiff.
  split; intros Hz.
  - apply poll_stops; [exact Hfetch | exact Hjob | apply Hiff; exact Hz].
  - apply (poll_goes_on self project_id job_id fuel tr job tr1 name);
      [exact Hfetch | exact Hjob |].
    intros H. apply Hz, Hiff. exact H.
Qed.

(** X4: a fetched payload that is not a dict, or has no 'status', or has a
    list or a dict for status, makes the loop raise [TypeError], [KeyError]
    of 'status' and [TypeError] right after the fetch: nothing is printed
    and the loop does not sleep. *)
Theorem poll_raises_on_unusable_payload (fuel : nat) (tr tr1 : trace)
  (job : pyval) :
  fetch tr = (Return job, tr1) ->
  ((forall items, job <> PDict items) ->
   poll (S fuel) tr = (Raise TypeError, tr1)) /\
  (forall items, job = PDict items -> dict_get "status" items = None ->
                 poll (S fuel) tr = (Raise (KeyError "status"), tr1)) /\
  (forall items status,
      job = PDict items -> dict_get "status" items = Some status ->
      (exists xs, status = PList xs) \/ (exists kvs, status = PDict kvs) ->
      poll (S fuel) tr = (Raise TypeError, tr1)).
Proof.
  intros Hfetch. rewrite poll_S, Hfetch. unfold status_name_of.
  split; [| split].
  - intros Hnot. destruct job; try reflexivity.
    exfalso. eapply Hnot. reflexivity.
  - intros items -> Hnone. cbn [getitem]. rewrite Hnone. reflexivity.
  - intros items status -> Hsome Hshape. cbn [getitem]. rewrite Hsome.
    destruct Hshape as [(xs & ->) | (kvs & ->)]; reflexivity.
Qed.

(** X6: the loop has no bound of its own.  Against a service that answers
    every fetch with a payload whose status is not terminal, it is still
    running after any number of turns, having sent one request and slept 30
    seconds in each of them. *)
Theorem poll_has_no_bound (fuel : nat) (tr : trace) :
  (forall tr', exists r job name,
      serve tr' rq = Responded r /\ status_code r = 200 /\
      json_loads (content r) = Some job /\
      status_name_of job = inr name /\ ~ In name terminal_names) ->
  fst (poll fuel tr) = OutOfFuel /\
  requests_in (snd (poll fuel tr)) = (requests_in tr + fuel)%nat /\
  count_sleeps 30 (snd (poll fuel tr)) = (count_sleeps 30 tr + fuel)%nat.
Proof.
  intros Hserve. revert tr. induction fuel as [| fuel IH]; intros tr.
  - cbn [block_until_complete]. unfold out_of_fuel. cbn [fst snd].
    split; [reflexivity | split; lia].
  - destruct (Hserve tr) as (r & job & name & Hr & Hcode & Hjob & Hname & Hnt).
    assert (Hfetch : fetch tr = (Return job, (tr ++ [Request rq])%list)).
    { unfold try_get_job_run.
      change (Z.to_nat default_max_tries) with 3%nat.
      apply attempt_returns. rewrite Hr.
      apply decoded_expected; assumption. }
    rewrite (poll_goes_on self project_id job_id fuel tr job _ name Hfetch Hname Hnt).
    destruct (IH ((tr ++ [Request rq]) ++ [line name; Sleep query_sleep])%list)
      as (Hout & Hreq & Hsleep).
    rewrite Hout, Hreq, Hsleep, !requests_in_app, !count_sleeps_app.
    cbn. repeat split; lia.
Qed.

Lemma decoded_Return expected rp v :
  decoded expected rp = Return v ->
  exists r, rp = Responded r /\ status_code r = expected /\
            json_loads (content r) = Some v.
Proof.
  destruct rp as [r |]; cbn [decoded]; [| discriminate].
  destruct (Z.eqb_spec (status_code r) expected) as [Hcode | _]; [| discriminate].
  destruct (json_loads (content r)) as [v' |] eqn:Hbody; [| discriminate].
  intros H. injection H as <-. exists r.
  split; [reflexivity | split; [exact Hcode | exact Hbody]].
Qed.

(** A fetch that returns: some refused attempts, then the request whose
    reply is the payload. *)
Lemma fetch_returned_reply tr job tr1 :
  fetch tr = (Return job, tr1) ->
  exists added r,
    tr1 = ((tr ++ added) ++ [Request rq])%list /\
    Forall polling added /\ count_sleeps 30 added = 0%nat /\
    serve (tr ++ added)%list rq = Responded r /\ status_code r = 200 /\
    json_loads (content r) = Some job.
Proof.
  unfold try_get_job_run.
  destruct (loop_outcome self project_id job_id (Z.to_nat default_max_tries) tr)
    as (k & _ & [(_ & Hrun) | (_ & _ & Hrun)]); rewrite Hrun; intros H.
  - discriminate H.
  - injection H as Hjob <-.
    destruct (after_failures_added self project_id job_id k tr)
      as (added & Hadded & Hall).
    pose proof (after_failures_counts self project_id job_id k tr)
      as (_ & _ & H30).
    rewrite Hadded in Hjob, H30 |- *. rewrite count_sleeps_app in H30.
    destruct (decoded_Return 200 _ job Hjob) as (r & Hr & Hcode & Hbody).
    exists added, r. repeat split; try assumption. lia.
Qed.

(** The turns that [pending] describes only add polling events, with one
    sleep of 30 seconds for each payload. *)
Lemma pending_added tr jobs tr' :
  pending self project_id job_id tr jobs tr' ->
  exists added,
    tr' = (tr ++ added)%list /\ Forall polling added /\
    count_sleeps 30 added = List.length jobs.
Proof.
  induction 1 as [tr | tr tr1 tr2 job name jobs Hfetch Hname Hnt Hrest
                          (more & -> & Hmall & Hmore)].
  - exists []. split; [symmetry; apply app_nil_r |]. split; [constructor | reflexivity].
  - destruct (fetch_added tr) as (added & Hadded & Hall).
    rewrite Hfetch in Hadded. cbn [snd] in Hadded.
    pose proof (fetch_no_query_sleep self project_id job_id tr _ _ Hfetch) as H30.
    subst tr1. rewrite count_sleeps_app in H30.
    exists (added ++ [line name; Sleep query_sleep] ++ more)%list.
    rewrite <- !app_assoc. split; [reflexivity |]. split.
    + apply Forall_app. split; [exact Hall |].
      apply Forall_app. split; [| exact Hmall].
      apply Forall_cons; [exact I |].
      apply Forall_cons; [right; reflexivity | apply Forall_nil].
    + rewrite !count_sleeps_app, Hmore. cbn. lia.
Qed.

(** X7: whatever the service does, the loop only adds fetches of its run,
    messages and sleeps of 10 or 30 seconds to the trace, and a payload it
    returns has the status Success, Error or Cancelled and is the one of its
    last fetch: the trace ends with a request and the status line, and the
    payload is the decoded body of the reply, of status 200, that the
    service gave to that request. *)
Theorem poll_returns_last_terminal_payload (fuel : nat) (tr : trace) :
  (exists added,
      snd (poll fuel tr) = (tr ++ added)%list /\ Forall polling added) /\
  (forall job,
      fst (poll fuel tr) = Return job ->
      exists name earlier r,
        status_name_of job = inr name /\
        In name ["Success"; "Error"; "Cancelled"] /\
        snd (poll fuel tr) = (earlier ++ [Request rq; line name])%list /\
        serve earlier rq = Responded r /\ status_code r = 200 /\
        json_loads (content r) = Some job).
Proof.
  split; [apply poll_added |].
  revert tr. induction fuel as [| fuel IH]; intros tr job H;
    [discriminate H |].
  rewrite poll_S in H |- *.
  destruct (fetch tr) as [[job1 | e |] tr1] eqn:Hfetch; try discriminate H.
  destruct (status_name_of job1) as [e | name] eqn:Hname; [discriminate H |].
  destruct (is_terminal name) eqn:Hterm.
  - cbn [fst] in H. injection H as <-.
    destruct (fetch_returned_reply tr job1 tr1 Hfetch)
      as (added & r & -> & _ & _ & Hr & Hcode & Hbody).
    exists name, (tr ++ added)%list, r. split; [exact Hname |]. split.
    + apply is_terminal_In. exact Hterm.
    + cbn [snd]. rewrite <- app_assoc. repeat split; assumption.
  - apply IH. exact H.
Qed.

End PollOutcomes.

(** ** A run that succeeds *)

Section RunJobSuccess.

Context {builtins : Builtins} {service : Service}.

Variables (self : Sinter) (project_id job_name : pyval).

(** C1: when exactly one definition has the requested name, [run_job]
    sends the listing and then posts the trigger of that definition's id,
    the POST of ".../definitions/<id>/runs/"; it then polls the run the
    trigger response names: every later request is the GET of
    ".../runs/<job id>/", with one 30-second sleep for each payload that is
    not terminal.  When these fetches give payloads without a terminal
    status and then one whose status is Success, [run_job] returns that
    last payload, the decoded reply to its last request, for every fuel
    that covers these turns. *)
Theorem run_job_returns_on_Success (tr tr3 tr4 : trace) (r0 r1 : response)
  (definitions job_def definition_id trigger_resp job_id job : pyval)
  (jobs : list pyval) :
  let listing :=
    mkRequest GET
      (api_base self ++ "/accounts/" ++ str (account_id self) ++ "/projects/"
         ++ str project_id ++ "/definitions/")
      [("Authorization", "Token " ++ str (api_token self))] in
  let trigger :=
    mkRequest POST
      (api_base self ++ "/accounts/" ++ str (account_id self) ++ "/projects/"
         ++ str project_id ++ "/definitions/" ++ str definition_id ++ "/runs/")
      [("Authorization", "token " ++ str (api_token self))] in
  let fetch :=
    mkRequest GET
      (api_base self ++ "/accounts/" ++ str (account_id self) ++ "/projects/"
         ++ str project_id ++ "/runs/" ++ str job_id ++ "/")
      [("Authorization", "Token " ++ str (api_token self))] in
  serve tr listing = Responded r0 ->
  status_code r0 = 200 ->
  json_loads (content r0) = Some definitions ->
  job_defs_of definitions job_name = inr [job_def] ->
  getitem job_def "id" = inr definition_id ->
  serve (tr ++ [Request listing])%list trigger = Responded r1 ->
  status_code r1 = 201 ->
  json_loads (content r1) = Some trigger_resp ->
  getitem trigger_resp "id" = inr job_id ->
  pending self project_id job_id
    (tr ++ [Request listing; Request trigger])%list jobs tr3 ->
  try_get_job_run self project_id job_id default_max_tries tr3 = (Return job, tr4) ->
  status_name_of job = inr "Success" ->
  forall fuel, (List.length jobs < fuel)%nat ->
    run_job fuel self project_id job_name tr =
      (Return job,
       (tr4 ++ [Print ("JOB: " ++ str job_id ++ ", STATUS: Success")])%list) /\
    exists polled r,
      tr4 = (tr ++ Request listing :: Request trigger
                :: polled ++ [Request fetch])%list /\
      Forall (fun e => match e with
                       | Request rq => rq = fetch
                       | Sleep secs => secs = 10 \/ secs = 30
                       | Print _ => True
                       end) polled /\
      count_sleeps 30 polled = List.length jobs /\
      serve (tr ++ Request listing :: Request trigger :: polled)%list fetch
        = Responded r /\
      status_code r = 200 /\
      json_loads (content r) = Some job.
Proof.
  intros listing trigger fetch Hr0 Hcode0 Hbody0 Hdefs Hid Hr1 Hcode1 Hbody1 Hjob
    Hpend Hfetch Hname fuel Hfuel.
  assert (Hlist : list_job_definitions self project_id tr =
                    (Return definitions, (tr ++ [Request listing])%list)).
  { unfold list_job_definitions. rewrite _get_run.
    change (get_request self (definitions_url self project_id)) with listing.
    rewrite Hr0, (decoded_expected 200 r0 definitions Hcode0 Hbody0). reflexivity. }
  assert (Htrig : trigger_job_run self project_id definition_id
                    (tr ++ [Request listing])%list =
                    (Return trigger_resp,
                     ((tr ++ [Request listing]) ++ [Request trigger])%list)).
  { unfold trigger_job_run. rewrite _post_run.
    change (post_request self (trigger_url self project_id definition_id))
      with trigger.
    rewrite Hr1, (decoded_expected 201 r1 trigger_resp Hcode1 Hbody1). reflexivity. }
  assert (Htr2 : ((tr ++ [Request listing]) ++ [Request trigger])%list =
                 (tr ++ [Request listing; Request trigger])%list).
  { rewrite <- app_assoc. reflexivity. }
  rewrite Htr2 in Htrig. split.
  - rewrite (proj1 (run_job_polls self project_id job_name fuel _ _ _ _ _ _ _ _
                      Hlist Hdefs Hid Htrig Hjob)).
    rewrite (poll_completes self project_id job_id fuel _ jobs tr3 job tr4 "Success"
               Hpend Hfetch Hname (or_introl eq_refl) Hfuel).
    rewrite Hname. reflexivity.
  - destruct (pending_added self project_id job_id _ _ _ Hpend)
      as (added1 & -> & Hall1 & Hsleeps).
    destruct (fetch_returned_reply self project_id job_id _ _ _ Hfetch)
      as (added2 & r & -> & Hall2 & Hnone & Hr & Hcode & Hbody).
    exists (added1 ++ added2)%list, r.
    change (run_request self project_id job_id) with fetch in Hr |- *.
    rewrite <- !app_assoc in Hr. cbn [app] in Hr.
    split; [repeat rewrite <- app_assoc; reflexivity |]. split.
    + apply Forall_app. split; [exact Hall1 | exact Hall2].
    + rewrite count_sleeps_app, Hsleeps, Hnone.
      split; [lia |]. repeat split; assumption.
Qed.

End RunJobSuccess.

(** ** The filter of the listing *)

(** X10: when every record of the listing has a name, the list
    comprehension of [run_job] is the filter that keeps the records whose
    name equals the requested one, in their order; a single record without a
    name makes it raise, whatever the other records are, and every exception
    it raises is the one of the subscript of some record. *)
Theorem select_by_name_filters (ds : list pyval) (job_name : pyval) :
  (Forall has_name ds ->
   select_by_name ds job_name = inr (filter (name_is job_name) ds)) /\
  (forall d, In d ds -> ~ has_name d ->
             exists e, select_by_name ds job_name = inl e) /\
  (forall e, select_by_name ds job_name = inl e ->
             exists d, In d ds /\ getitem d "name" = inl e).
Proof.
  induction ds as [| d0 ds (IHall & IHsome & IHerr)]; cbn [select_by_name filter].
  - split; [reflexivity |]. split.
    + intros d [].
    + intros e H. discriminate H.
  - unfold name_is at 1. split; [| split].
    + intros Hall. apply Forall_cons_iff in Hall. destruct Hall as [(name & Hd0) Hall].
      rewrite Hd0, (IHall Hall). destruct (py_eq name job_name); reflexivity.
    + intros d [<- | Hin] Hno.
      * destruct (getitem d0 "name") as [e | name] eqn:Hd0; [exists e; reflexivity |].
        exfalso. apply Hno. exists name. exact Hd0.
      * destruct (getitem d0 "name") as [e | name]; [exists e; reflexivity |].
        destruct (IHsome d Hin Hno) as (e & ->). exists e. reflexivity.
    + intros e H.
      destruct (getitem d0 "name") as [e0 | name] eqn:Hd0.
      * injection H as <-. exists d0. split; [left; reflexivity | exact Hd0].
      * destruct (select_by_name ds job_name) as [e1 | rest]; [| discriminate H].
        injection H as <-. destruct (IHerr e1 eq_refl) as (d & Hin & Hd).
        exists d. split; [right; exact Hin | exact Hd].
Qed.

(** ** Every outcome of run_job *)

Section RunJobOutcomes.

Context {builtins : Builtins} {service : Service}.

Variables (self : Sinter) (project_id job_name : pyval).

Local Abbreviation defs_rq :=
  (get_request self (definitions_url self project_id)).
Local Abbreviation trigger_rq definition_id :=
  (post_request self (trigger_url self project_id definition_id)).

Lemma polling_no_post job_id added :
  Forall (polling_event self project_id job_id) added ->
  filter is_post added = [].
Proof.
  induction 1 as [| e added He _ IH]; [reflexivity |].
  cbn [filter]. destruct e as [rq | secs | msg]; cbn [is_post]; try exact IH.
  cbn [polling_event] in He. subst rq. exact IH.
Qed.

(** The requests of [run_job]: the listing, then at most one trigger, then
    the polling of one run. *)
Lemma run_job_shape (fuel : nat) (tr : trace) :
  snd (run_job fuel self project_id job_name tr) =
    (tr ++ [Request defs_rq])%list \/
  exists definition_id job_id added,
    snd (run_job fuel self project_id job_name tr) =
      (tr ++ Request defs_rq :: Request (trigger_rq definition_id)
          :: added)%list /\
    Forall (polling_event self project_id job_id) added.
Proof.
  rewrite run_job_run. cbv zeta.
  destruct (decoded 200 _) as [definitions | e |]; try (left; reflexivity).
  destruct (job_defs_of definitions job_name) as [e | job_defs];
    [left; reflexivity |].
  destruct job_defs as [| job_def [| job_def' rest]]; try (left; reflexivity).
  destruct (getitem job_def "id") as [e | definition_id]; [left; reflexivity |].
  right. exists definition_id.
  assert (Hnone : forall r : outcome pyval,
             exists (job_id' : pyval) added,
               snd (r, ((tr ++ [Request defs_rq])
                          ++ [Request (trigger_rq definition_id)])%list) =
                 (tr ++ Request defs_rq :: Request (trigger_rq definition_id)
                     :: added)%list /\
               Forall (polling_event self project_id job_id') added).
  { intros r. exists PNone, []. cbn [snd]. rewrite <- app_assoc.
    split; [reflexivity | constructor]. }
  destruct (decoded 201 _) as [trigger_resp | e |]; try (apply Hnone).
  destruct (getitem trigger_resp "id") as [e | job_id]; [apply Hnone |].
  destruct (poll_added self project_id job_id fuel
              ((tr ++ [Request defs_rq])
                 ++ [Request (trigger_rq definition_id)])%list)
    as (added & Hadded & Hall).
  exists job_id, added. split; [| exact Hall].
  destruct (block_until_complete fuel self project_id job_id _)
    as [[job | e |] tr3]; cbn [snd] in Hadded; subst tr3.
  - destruct (status_name_of job) as [e | status_name];
      [| destruct (String.eqb status_name "Success")];
      cbn [snd]; rewrite <- !app_assoc; reflexivity.
  - cbn [snd]. rewrite <- !app_assoc. reflexivity.
  - cbn [snd]. rewrite <- !app_assoc. reflexivity.
Qed.

(** X8: whatever the service does, the requests of [run_job] are the
    listing, then at most one trigger, then only fetches of one run; so it
    never posts more than once, and it sleeps 10 or 30 seconds at a time. *)
Theorem run_job_requests_in_order (fuel : nat) (tr : trace) :
  (snd (run_job fuel self project_id job_name tr) =
     (tr ++ [Request defs_rq])%list \/
   exists definition_id job_id added,
     snd (run_job fuel self project_id job_name tr) =
       (tr ++ Request defs_rq :: Request (trigger_rq definition_id) :: added)%list /\
     Forall (polling_event self project_id job_id) added) /\
  (List.length (filter is_post (snd (run_job fuel self project_id job_name tr)))
   <= List.length (filter is_post tr) + 1)%nat.
Proof.
  pose proof (run_job_shape fuel tr) as Hshape.
  split; [exact Hshape |].
  destruct Hshape as [-> | (definition_id & job_id & added & -> & Hall)].
  - rewrite filter_app, length_app. cbn. lia.
  - rewrite filter_app, length_app. cbn [filter is_post req_method get_request
                                          post_request].
    rewrite (polling_no_post job_id added Hall). cbn. lia.
Qed.

(** X9: with exactly one matching definition, [run_job] stops before the
    polling in three cases.  A definition without an 'id' raises before any
    trigger; a trigger response whose status is not 201, 200 included, raises
    a [RuntimeError] with its body; and a trigger response without an 'id'
    raises after the trigger was posted, the run being left without a
    fetch. *)
Theorem run_job_stops_before_polling (fuel : nat) (tr tr1 : trace)
  (definitions job_def : pyval) :
  list_job_definitions self project_id tr = (Return definitions, tr1) ->
  job_defs_of definitions job_name = inr [job_def] ->
  (forall e, getitem job_def "id" = inl e ->
             run_job fuel self project_id job_name tr =
               (Raise e, (tr ++ [Request defs_rq])%list)) /\
  (forall definition_id r,
      getitem job_def "id" = inr definition_id ->
      serve tr1 (trigger_rq definition_id) = Responded r ->
      status_code r <> 201 ->
      run_job fuel self project_id job_name tr =
        (Raise (RuntimeError (content r)),
         (tr ++ [Request defs_rq; Request (trigger_rq definition_id)])%list)) /\
  (forall definition_id trigger_resp tr2 e,
      getitem job_def "id" = inr definition_id ->
      trigger_job_run self project_id definition_id tr1
        = (Return trigger_resp, tr2) ->
      getitem trigger_resp "id" = inl e ->
      run_job fuel self project_id job_name tr =
        (Raise e,
         (tr ++ [Request defs_rq; Request (trigger_rq definition_id)])%list)).
Proof.
  intros Hlist Hdefs.
  apply listing_returned in Hlist. destruct Hlist as [Hlist ->].
  split; [| split].
  - intros e Hid. rewrite run_job_run. cbv zeta.
    rewrite Hlist, Hdefs, Hid. reflexivity.
  - intros definition_id r Hid Hr Hcode. rewrite run_job_run. cbv zeta.
    rewrite Hlist, Hdefs, Hid, Hr, (decoded_other 201 r Hcode), <- app_assoc.
    reflexivity.
  - intros definition_id trigger_resp tr2 e Hid Htrig Hjob.
    apply trigger_returned in Htrig. destruct Htrig as [Htrig ->].
    rewrite run_job_run. cbv zeta.
    rewrite Hlist, Hdefs, Hid, Htrig, Hjob, <- app_assoc. reflexivity.
Qed.


(** X11: a listing that is an empty list, an empty dict or an empty string
    has nothing to iterate over, and [run_job] raises "0 jobs found for
    <name>"; a listing that is [None], a bool or an int is not iterable, and
    one that is a non-empty string gives characters, which have no name:
    [run_job] raises [TypeError].  In each case the listing is the only
    request. *)
Theorem run_job_on_degenerate_listing (fuel : nat) (tr tr1 : trace)
  (body : pyval) :
  list_job_definitions self project_id tr = (Return body, tr1) ->
  (body = PList [] \/ body = PDict [] \/ body = PStr "" ->
   run_job fuel self project_id job_name tr =
     (Raise (AirflowException (jobs_found 0 job_name)),
      (tr ++ [Request defs_rq])%list)) /\
  (body = PNone \/ (exists b, body = PBool b) \/ (exists z, body = PInt z) \/
   (exists c s, body = PStr (String c s)) ->
   run_job fuel self project_id job_name tr =
     (Raise TypeError, (tr ++ [Request defs_rq])%list)).
Proof.
  intros Hlist. apply listing_returned in Hlist. destruct Hlist as [Hlist ->].
  rewrite run_job_run. cbv zeta. rewrite Hlist. split.
  - intros [-> | [-> | ->]]; reflexivity.
  - intros [-> | [(b & ->) | [(z & ->) | (c & s & ->)]]]; reflexivity.
Qed.

(** X15: every request [run_job] sends goes to a URL under the API base
    and carries the token of the client as its only header, after 'Token'
    for a GET and after 'token' for the trigger. *)
Theorem run_job_requests_authorized (fuel : nat) (tr : trace) :
  exists added,
    snd (run_job fuel self project_id job_name tr) = (tr ++ added)%list /\
    Forall (authorized self) added.
Proof.
  assert (Hget : forall url_suffix,
             authorized self (Request (get_request self url_suffix))).
  { intros url_suffix. split; [exists url_suffix |]; reflexivity. }
  assert (Hpost : forall url_suffix,
             authorized self (Request (post_request self url_suffix))).
  { intros url_suffix. split; [exists url_suffix |]; reflexivity. }
  destruct (run_job_shape fuel tr)
    as [-> | (definition_id & job_id & added & -> & Hall)].
  - eexists. split; [reflexivity |]. constructor; [apply Hget | constructor].
  - eexists. split; [reflexivity |].
    constructor; [apply Hget |]. constructor; [apply Hpost |].
    eapply Forall_impl; [| exact Hall].
    intros [rq | secs | msg] He; cbn [authorized]; try exact I.
    cbn [polling_event] in He. subst rq. apply Hget.
Qed.

End RunJobOutcomes.

(** ** The operator *)

Lemma is_None_spec (v : pyval) : SinterOperator.is_None v = true <-> v = PNone.
Proof. destruct v; cbn; split; intros H; try reflexivity; discriminate H. Qed.

(** X12: the constructor of the operator succeeds exactly when none of the
    token, the account id, the project id and the job name is [None], and
    then keeps the four values as they are; otherwise it raises the message
    of the first of them that is [None], in that order. *)
Theorem init_checks_in_order (token account_id project_id job_name : pyval) :
  (forall op,
      SinterOperator.init token account_id project_id job_name = inr op <->
      token <> PNone /\ account_id <> PNone /\ project_id <> PNone /\
      job_name <> PNone /\
      op = SinterOperator.mk token account_id project_id job_name) /\
  (token = PNone ->
   SinterOperator.init token account_id project_id job_name =
     inl (AirflowException "No valid Sinter token was supplied.")) /\
  (token <> PNone -> account_id = PNone ->
   SinterOperator.init token account_id project_id job_name =
     inl (AirflowException "No valid account id was supplied.")) /\
  (token <> PNone -> account_id <> PNone -> project_id = PNone ->
   SinterOperator.init token account_id project_id job_name =
     inl (AirflowException "No valid project id was supplied.")) /\
  (token <> PNone -> account_id <> PNone -> project_id <> PNone ->
   job_name = PNone ->
   SinterOperator.init token account_id project_id job_name =
     inl (AirflowException "No job name was supplied.")).
Proof.
  unfold SinterOperator.init.
  destruct (SinterOperator.is_None token) eqn:Ht;
    [apply is_None_spec in Ht |
     assert (Ht' : token <> PNone)
       by (intros H; apply is_None_spec in H; congruence)];
  (destruct (SinterOperator.is_None account_id) eqn:Ha;
    [apply is_None_spec in Ha |
     assert (Ha' : account_id <> PNone)
       by (intros H; apply is_None_spec in H; congruence)]);
  (destruct (SinterOperator.is_None project_id) eqn:Hp;
    [apply is_None_spec in Hp |
     assert (Hp' : project_id <> PNone)
       by (intros H; apply is_None_spec in H; congruence)]);
  (destruct (SinterOperator.is_None job_name) eqn:Hj;
    [apply is_None_spec in Hj |
     assert (Hj' : job_name <> PNone)
       by (intros H; apply is_None_spec in H; congruence)]);
  (split; [intros op; split;
           [intros H; try discriminate H; injection H as <-; repeat split; assumption
           | intros (H1 & H2 & H3 & H4 & H5); try contradiction; subst op; reflexivity]
          |]);
  repeat split; intros; try reflexivity; contradiction.
Qed.

Section OperatorFacts.

Context {builtins : Builtins} {service : Service} {errors : ErrorText}.

Variable self : SinterOperator.t.

Local Abbreviation sinter :=
  (Sinter_init (SinterOperator.account_id self) (SinterOperator.token self)).
Local Abbreviation run fuel :=
  (run_job fuel sinter (SinterOperator.project_id self)
     (SinterOperator.job_name self)).

Lemma execute_run fuel tr :
  SinterOperator.execute fuel self tr =
    (match fst (run fuel tr) with
     | Return _ => Return PNone
     | Raise (RuntimeError arg) =>
         Raise (AirflowException
                  (SinterOperator.error_while_running
                     (SinterOperator.job_name self) arg))
     | Raise e => Raise e
     | OutOfFuel => OutOfFuel
     end,
     snd (run fuel tr)).
Proof.
  unfold SinterOperator.execute, try_except_RuntimeError, bind. cbv zeta.
  destruct (run fuel tr) as [[job | e |] tr']; cbn [fst snd]; try reflexivity.
  destruct e; reflexivity.
Qed.

(** X13: [execute] makes the requests, sleeps and messages of [run_job] and
    nothing else; it never lets a [RuntimeError] out: one that [run_job]
    raises comes out as an [AirflowException] "Error while running job
    <name>: <error>", every other exception of [run_job] comes out as it is,
    the [AirflowException] of a failed run included, and when [run_job]
    returns, [execute] returns [None]. *)
Theorem execute_translates_RuntimeError (fuel : nat) (tr : trace) :
  snd (SinterOperator.execute fuel self tr) = snd (run fuel tr) /\
  (forall arg, fst (SinterOperator.execute fuel self tr)
               <> Raise (RuntimeError arg)) /\
  (forall arg,
      fst (run fuel tr) = Raise (RuntimeError arg) ->
      fst (SinterOperator.execute fuel self tr) =
        Raise (AirflowException
                 ("Error while running job " ++ str (SinterOperator.job_name self)
                    ++ ": " ++ error_str arg))) /\
  (forall e,
      fst (run fuel tr) = Raise e -> (forall arg, e <> RuntimeError arg) ->
      fst (SinterOperator.execute fuel self tr) = Raise e) /\
  (forall job,
      fst (run fuel tr) = Return job ->
      fst (SinterOperator.execute fuel self tr) = Return PNone).
Proof.
  rewrite execute_run. cbn [fst snd]. split; [reflexivity |]. split; [| split; [| split]].
  - intros arg. destruct (fst (run fuel tr)) as [job | e |]; try discriminate.
    destruct e; discriminate.
  - intros arg ->. reflexivity.
  - intros e -> He. destruct e; try reflexivity. exfalso. eapply He. reflexivity.
  - intros job ->. reflexivity.
Qed.

(** X14: when the listing is refused with a status other than 200,
    [execute] ends after this one request with the [AirflowException] whose
    message is "Error while running job <name>: " followed by [str(e)] for
    the [RuntimeError] [e] that carries the body of the response. *)
Theorem execute_reports_refused_listing (fuel : nat) (tr : trace)
  (r : response) :
  serve tr (get_request sinter
              (definitions_url sinter (SinterOperator.project_id self)))
    = Responded r ->
  status_code r <> 200 ->
  SinterOperator.execute fuel self tr =
    (Raise (AirflowException
              ("Error while running job " ++ str (SinterOperator.job_name self)
                 ++ ": " ++ error_str (content r))),
     (tr ++ [Request (get_request sinter
                        (definitions_url sinter
                           (SinterOperator.project_id self)))])%list).
Proof.
  intros Hr Hcode. rewrite execute_run, run_job_run. cbv zeta.
  rewrite Hr, (decoded_other 200 r Hcode). reflexivity.
Qed.

End OperatorFacts.

(** ** The further statements on concrete exchanges *)

Lemma poll_stops_on_codes_10_20_30_witness :
  @block_until_complete cpython (always (http 200 (json_dumps (payload 7)))) 1
    demo (PInt 5) (PInt 900) [] =
    (OutOfFuel,
     [ Request (@run_request cpython demo (PInt 5) (PInt 900));
       Print "JOB: 900, STATUS: Unknown"; Sleep 30 ]).
Proof.
  rewrite (proj2 (@poll_stops_on_codes_10_20_30 cpython
                    (always (http 200 (json_dumps (payload 7))))
                    demo (PInt 5) (PInt 900) 0
                    [] [Request (@run_request cpython demo (PInt 5) (PInt 900))]
                    (payload 7) 7 "Unknown" eq_refl eq_refl eq_refl)).
  - reflexivity.
  - not_listed.
Defined.

Lemma poll_raises_on_unusable_payload_witness :
  @block_until_complete cpython
    (always (http 200 (json_dumps (PDict [("id", PInt 900)])))) 1
    demo (PInt 5) (PInt 900) [] =
    (Raise (KeyError "status"),
     [Request (@run_request cpython demo (PInt 5) (PInt 900))]).
Proof.
  apply (proj1 (proj2 (@poll_raises_on_unusable_payload cpython
                         (always (http 200 (json_dumps (PDict [("id", PInt 900)]))))
                         demo (PInt 5) (PInt 900) 0
                         [] [Request (@run_request cpython demo (PInt 5) (PInt 900))]
                         (PDict [("id", PInt 900)]) eq_refl))
           [("id", PInt 900)] eq_refl eq_refl).
Defined.

Lemma poll_has_no_bound_witness :
  fst (@block_until_complete cpython (always (http 200 (json_dumps (payload 3)))) 5
         demo (PInt 5) (PInt 900) []) = OutOfFuel /\
  requests_in
    (snd (@block_until_complete cpython
            (always (http 200 (json_dumps (payload 3)))) 5
            demo (PInt 5) (PInt 900) [])) = (requests_in [] + 5)%nat /\
  count_sleeps 30
    (snd (@block_until_complete cpython
            (always (http 200 (json_dumps (payload 3)))) 5
            demo (PInt 5) (PInt 900) [])) = (count_sleeps 30 [] + 5)%nat.
Proof.
  apply (@poll_has_no_bound cpython (always (http 200 (json_dumps (payload 3))))
           demo (PInt 5) (PInt 900) 5 []).
  intros tr'.
  exists (mkResponse 200 (json_dumps (payload 3))), (payload 3), "Running".
  split; [reflexivity |]. split; [reflexivity |]. split; [reflexivity |].
  split; [reflexivity | not_listed].
Defined.

Lemma select_by_name_filters_witness :
  (exists e,
      select_by_name [record 12 "nightly"; PDict [("id", PInt 13)]]
        (PStr "nightly") = inl e) /\
  @run_job cpython nameless_service 3 demo (PInt 5) (PStr "nightly") [] =
    (Raise (KeyError "name"),
     [Request (@get_request cpython demo "/accounts/42/projects/5/definitions/")]).
Proof.
  split.
  - apply (proj1 (proj2 (select_by_name_filters
                           [record 12 "nightly"; PDict [("id", PInt 13)]]
                           (PStr "nightly")))
             (PDict [("id", PInt 13)])).
    + right. left. reflexivity.
    + intros (name & H). discriminate H.
  - vm_compute. reflexivity.
Defined.

Lemma run_job_stops_before_polling_witness :
  @run_job cpython untriggered_service 3 demo (PInt 5) (PStr "nightly") [] =
    (Raise (RuntimeError (json_dumps (payload 1))),
     [ Request (@get_request cpython demo "/accounts/42/projects/5/definitions/");
       Request (@post_request cpython demo
                  "/accounts/42/projects/5/definitions/12/runs/") ]).
Proof.
  apply (proj1 (proj2 (@run_job_stops_before_polling cpython untriggered_service
                         demo (PInt 5) (PStr "nightly") 3 [] _
                         two_definitions (record 12 "nightly") eq_refl eq_refl))
           (PInt 12) (mkResponse 200 (json_dumps (payload 1))) eq_refl eq_refl).
  discriminate.
Defined.



Lemma run_job_on_degenerate_listing_witness :
  @run_job cpython (scripted [http 200 "{}"]) 3 demo (PInt 5) (PStr "nightly") [] =
    (Raise (AirflowException "0 jobs found for nightly"),
     [Request (@get_request cpython demo "/accounts/42/projects/5/definitions/")]).
Proof.
  apply (proj1 (@run_job_on_degenerate_listing cpython (scripted [http 200 "{}"])
                  demo (PInt 5) (PStr "nightly") 3 [] _ (PDict []) eq_refl)).
  right. left. reflexivity.
Defined.

Lemma execute_translates_RuntimeError_witness :
  fst (@SinterOperator.execute cpython (run_service 20) bytes_errors 3
         demo_operator []) =
    Raise (AirflowException "Run failed with status: Error").
Proof.
  apply (proj1 (proj2 (proj2 (proj2
           (@execute_translates_RuntimeError cpython (run_service 20) bytes_errors
              demo_operator 3 []))))).
  - vm_compute. reflexivity.
  - discriminate.
Defined.

Lemma execute_reports_refused_listing_witness :
  @SinterOperator.execute cpython closed_service bytes_errors 3 demo_operator [] =
    (Raise (AirflowException "Error while running job nightly: b'Invalid token.'"),
     [Request demo_listing]).
Proof.
  apply (@execute_reports_refused_listing cpython closed_service bytes_errors
           demo_operator 3 [] (mkResponse 401 "Invalid token.") eq_refl).
  discriminate.
Defined.

(** The polling of the run 900 against [cloud four_polls]. *)
Lemma cloud_pending :
  @pending cpython (cloud four_polls) demo (PInt 5) (PInt 900)
    [Request demo_listing; Request demo_trigger]
    [payload 1; payload 3] demo_two_turns.
Proof.
  eapply pending_cons; [evaluate | evaluate | not_listed |].
  eapply pending_cons; [evaluate | evaluate | not_listed |].
  apply pending_nil.
Defined.

Lemma cloud_last_fetch :
  @try_get_job_run cpython (cloud four_polls) demo (PInt 5) (PInt 900) 3
    demo_two_turns =
    (Return (payload 10), (demo_two_turns ++ [Request demo_fetch])%list).
Proof. vm_compute. reflexivity. Defined.

Lemma run_job_returns_on_Success_witness :
  @run_job cpython (cloud four_polls) 3 demo (PInt 5) (PStr "nightly") [] =
    (Return (payload 10),
     [ Request demo_listing; Request demo_trigger;
       Request demo_fetch; Print "JOB: 900, STATUS: Queued"; Sleep 30;
       Request demo_fetch;
       Print "Encountered a runtime error while fetching status for 900";
       Sleep 10;
       Request demo_fetch; Print "JOB: 900, STATUS: Running"; Sleep 30;
       Request demo_fetch; Print "JOB: 900, STATUS: Success" ]).
Proof.
  apply (proj1 (@run_job_returns_on_Success cpython (cloud four_polls) demo
                  (PInt 5) (PStr "nightly")
                  [] demo_two_turns (demo_two_turns ++ [Request demo_fetch])%list
                  (mkResponse 200 (json_dumps two_definitions))
                  (mkResponse 201 (json_dumps (payload 1)))
                  two_definitions (record 12 "nightly") (PInt 12) (payload 1)
                  (PInt 900) (payload 10) [payload 1; payload 3]
                  eq_refl eq_refl eq_refl eq_refl eq_refl eq_refl eq_refl eq_refl
                  eq_refl cloud_pending cloud_last_fetch eq_refl 3%nat (le_n 3))).
Defined.

Lemma poll_returns_last_terminal_payload_witness :
  exists name earlier r,
    status_name_of (payload 10) = inr name /\
    In name ["Success"; "Error"; "Cancelled"] /\
    snd (@block_until_complete cpython (cloud four_polls) 3 demo (PInt 5)
           (PInt 900) [Request demo_listing; Request demo_trigger]) =
      (earlier ++ [Request demo_fetch;
                   Print (@status_line cpython (PInt 900) name)])%list /\
    @serve (cloud four_polls) earlier demo_fetch = Responded r /\
    status_code r = 200 /\
    @json_loads cpython (content r) = Some (payload 10).
Proof.
  apply (proj2 (@poll_returns_last_terminal_payload cpython (cloud four_polls)
                  demo (PInt 5) (PInt 900) 3
                  [Request demo_listing; Request demo_trigger])
           (payload 10)).
  vm_compute. reflexivity.
Defined.
